(** * Benin least-cost electrification: demand and LCOE models

    A shallow embedding of [benin_least_cost/config.py], [demand.py] and
    [lcoe.py], and of the call sequence of [scripts/run_benin_pipeline.py].

    The Python code is vectorised over the rows of a (Geo)DataFrame and no
    statement looks at another row, so every column expression is embedded
    as the value it takes on one row.  A row carries, for each optional
    column, [None] when the table has no such column at all; a column that
    is present may still hold a null cell, which pandas reads as NaN.

    The float64 columns are embedded as exact rationals extended with the
    IEEE special values [+inf], [-inf] and [NaN]: division by zero, NaN
    propagation and NaN-skipping reductions follow numpy and pandas, while
    rounding error and the sign of zero are left out.  The scalar function
    [crf], whose result for a rate near zero is decided by rounding, is
    embedded a second time over binary64 floats ([Float64.crf]). *)

From Stdlib Require Import QArith Qround Qpower Qminmax Lqa.
From Stdlib Require Import ZArith Lia Bool String List.
From Stdlib Require PrimFloat FloatOps SpecFloat.
Import ListNotations.

Local Open Scope Q_scope.

(* ------------------------------------------------------------------ *)
(** ** Numbers: rationals with the IEEE special values *)

Inductive num : Type :=
| Fin (q : Q)
| PInf
| NInf
| NaN.

Module Num.

Definition of_Z (z : Z) : num := Fin (inject_Z z).

Definition isnan (x : num) : bool :=
  match x with NaN => true | _ => false end.

Definition Qltb (a b : Q) : bool :=
  match a ?= b with Lt => true | _ => false end.

(** [x + y] *)
Definition add (x y : num) : num :=
  match x, y with
  | NaN, _ | _, NaN => NaN
  | Fin a, Fin b => Fin (a + b)
  | PInf, NInf | NInf, PInf => NaN
  | PInf, _ | _, PInf => PInf
  | NInf, _ | _, NInf => NInf
  end.

(** The infinity with the sign of [a], NaN for [a = 0] (as [0 * inf]). *)
Definition signed_inf (a : Q) (pos : bool) : num :=
  match a ?= 0 with
  | Eq => NaN
  | Gt => if pos then PInf else NInf
  | Lt => if pos then NInf else PInf
  end.

(** [x * y] *)
Definition mul (x y : num) : num :=
  match x, y with
  | NaN, _ | _, NaN => NaN
  | Fin a, Fin b => Fin (a * b)
  | Fin a, PInf | PInf, Fin a => signed_inf a true
  | Fin a, NInf | NInf, Fin a => signed_inf a false
  | PInf, PInf | NInf, NInf => PInf
  | PInf, NInf | NInf, PInf => NInf
  end.

(** [x / y] on numpy arrays: a zero divisor gives an infinity, or NaN for
    [0 / 0]; nothing is raised. *)
Definition div (x y : num) : num :=
  match x, y with
  | NaN, _ | _, NaN => NaN
  | Fin a, Fin b =>
      match b ?= 0 with
      | Eq => signed_inf a true
      | _ => Fin (a / b)
      end
  | Fin _, PInf | Fin _, NInf => Fin 0
  | PInf, Fin b => if Qle_bool 0 b then PInf else NInf
  | NInf, Fin b => if Qle_bool 0 b then NInf else PInf
  | PInf, PInf | PInf, NInf | NInf, PInf | NInf, NInf => NaN
  end.

(** [np.ceil] *)
Definition ceil (x : num) : num :=
  match x with
  | Fin q => of_Z (Qceiling q)
  | _ => x
  end.

(** [x < y]; every comparison with NaN is [False]. *)
Definition lt (x y : num) : bool :=
  match x, y with
  | NaN, _ | _, NaN => false
  | Fin a, Fin b => Qltb a b
  | NInf, Fin _ | NInf, PInf | Fin _, PInf => true
  | _, _ => false
  end.

(** [x > y] *)
Definition gt (x y : num) : bool := lt y x.

(** [x == y] *)
Definition eqb (x y : num) : bool :=
  match x, y with
  | Fin a, Fin b => Qeq_bool a b
  | PInf, PInf | NInf, NInf => true
  | _, _ => false
  end.

(** [np.minimum] and [np.maximum]: NaN if either argument is NaN. *)
Definition minimum (x y : num) : num :=
  match x, y with
  | NaN, _ | _, NaN => NaN
  | _, _ => if lt y x then y else x
  end.

Definition maximum (x y : num) : num :=
  match x, y with
  | NaN, _ | _, NaN => NaN
  | _, _ => if lt x y then y else x
  end.

(** [np.clip(x, lo, hi)] *)
Definition clip (x lo hi : num) : num := minimum (maximum x lo) hi.

(** [Series.clip(lower=lo)] *)
Definition clip_lower (x lo : num) : num := maximum x lo.

(** Propositional reading of the same values, for the statements. *)
Definition eq (x y : num) : Prop :=
  match x, y with
  | Fin a, Fin b => a == b
  | PInf, PInf | NInf, NInf | NaN, NaN => True
  | _, _ => False
  end.

Definition le (x y : num) : Prop :=
  match x, y with
  | NaN, _ | _, NaN => False
  | Fin a, Fin b => a <= b
  | NInf, _ | _, PInf => True
  | _, _ => False
  end.

End Num.

Declare Scope num_scope.
Delimit Scope num_scope with num.
Bind Scope num_scope with num.
Infix "+" := Num.add : num_scope.
Infix "*" := Num.mul : num_scope.
Infix "/" := Num.div : num_scope.
Infix "<?" := Num.lt (at level 70, no associativity) : num_scope.
Infix ">?" := Num.gt (at level 70, no associativity) : num_scope.
Infix "=?" := Num.eqb (at level 70, no associativity) : num_scope.

(* ------------------------------------------------------------------ *)
(** ** Python and pandas values *)

Module Py.

Inductive exn : Type :=
| AttributeError
| ZeroDivisionError
| ValueError
| OverflowError
| IntCastingNaNError.

Inductive result (A : Type) : Type :=
| Ok (a : A)
| Err (e : exn).
Arguments Ok {A} a.
Arguments Err {A} e.

Definition bind {A B : Type} (c : result A) (k : A -> result B) : result B :=
  match c with
  | Ok a => k a
  | Err e => Err e
  end.

(** What [gdf.get(col, default)] evaluates to on one row: the cell of a
    Series, or the Python scalar that was passed as the default. *)
Inductive pyobj : Type :=
| PyInt (z : Z)
| Series (x : num).

(** [gdf.get(col, default)]: the column when the table has it, the default
    object itself otherwise. *)
Definition get (col : option num) (default : pyobj) : pyobj :=
  match col with
  | Some x => Series x
  | None => default
  end.

(** [obj.fillna(value)]: a Series method; a Python [int] has no such
    attribute. *)
Definition fillna (obj : pyobj) (value : Q) : result num :=
  match obj with
  | Series x => Ok (if Num.isnan x then Fin value else x)
  | PyInt _ => Err AttributeError
  end.

(** The value an object contributes to an elementwise operation (a scalar
    is broadcast). *)
Definition as_num (obj : pyobj) : num :=
  match obj with
  | Series x => x
  | PyInt z => Num.of_Z z
  end.

(** [int(x)] on a float: truncation toward zero. *)
Definition py_int (x : num) : result Z :=
  match x with
  | Fin q => Ok (if Qle_bool 0 q then Qfloor q else Qceiling q)
  | NaN => Err ValueError
  | PInf | NInf => Err OverflowError
  end.

(** [Series.astype(int)]: pandas refuses NaN and the infinities. *)
Definition astype_int (x : num) : result Z :=
  match x with
  | Fin q => Ok (if Qle_bool 0 q then Qfloor q else Qceiling q)
  | _ => Err IntCastingNaNError
  end.

(** [d[k]] and [Series.map(d)] for a dict literal written as a list of
    pairs; [map] gives NaN for a key the dict lacks. *)
Fixpoint lookup {K V : Type} (eqb : K -> K -> bool) (d : list (K * V)) (k : K)
  : option V :=
  match d with
  | [] => None
  | (k', v) :: d' => if eqb k k' then Some v else lookup eqb d' k
  end.

Definition map_dict (d : list (Z * Q)) (k : Z) : num :=
  match lookup Z.eqb d k with
  | Some v => Fin v
  | None => NaN
  end.

End Py.

Import Py.

Notation "x <- c ;; k" := (bind c (fun x => k))
  (at level 61, c at next level, right associativity).

(* ------------------------------------------------------------------ *)
(** ** config.py *)

Module Config.

Definition PLANNING_HORIZON : Z := 15.
Definition POP_GROWTH : Q := 0.027.
Definition WEALTH_GROWTH : Q := 0.015.
Definition DISCOUNT_RATE : Q := 0.08.

Definition TIER_KWH : list (Z * Q) :=
  [(1%Z, 35); (2%Z, 220); (3%Z, 850); (4%Z, 2200); (5%Z, 3500)].
Definition TIER_LF : list (Z * Q) :=
  [(1%Z, 0.18); (2%Z, 0.20); (3%Z, 0.25); (4%Z, 0.30); (5%Z, 0.35)].

Definition LOADS_table : list (string * Q) :=
  [("health", 4000); ("education", 1500); ("sme", 600); ("freezer", 2500);
   ("irrigation", 3500); ("mill", 4500); ("dryer", 6000)]%string.

(** [LOADS[key]] for the keys the code uses, all of them in the table. *)
Definition LOADS (key : string) : Q :=
  match lookup String.eqb LOADS_table key with
  | Some v => v
  | None => 0
  end.

Definition TARGET_UPTAKE_2040 : Q := 0.85.

Definition MV_COST_KM : Q := 14000.
Definition LV_COST_KM : Q := 5500.
Definition SUBSTATION_COST : Q := 500000.
Definition TRANSFORMER_COST : Q := 8000.
Definition CONN_GRID : Q := 150.
Definition GRID_LOSS : Q := 0.18.
Definition GRID_PRICE : Q := 0.10.

Definition PV_COST : Q := 700.
Definition BATT_COST : Q := 300.
Definition INV_COST : Q := 180.
Definition CONN_MG : Q := 100.
Definition CF_SOLAR : Q := 0.18.
Definition BATT_LIFE : Z := 7.

Definition SHS_COST : list (Z * Q) := [(1%Z, 80); (2%Z, 250); (3%Z, 600)].
Definition SHS_CAP : list (Z * Q) := [(1%Z, 35); (2%Z, 150); (3%Z, 350)].
Definition MAX_TIER_SHS : Z := 3.

End Config.

Import Config.

(* ------------------------------------------------------------------ *)
(** ** The table *)

(** One row of the settlement table that the pipeline reads.  An optional
    column is [None] when the table does not have it; [geometry] holds the
    latitude [row.geometry.centroid.y], the only use made of the geometry.
    A row whose geometry cell is null, on which [row.geometry.centroid]
    raises [AttributeError], is not among the rows represented. *)
Record Settlement : Type := {
  population : num;
  num_buildings : option num;
  mean_rwi : option num;
  has_nightlight : option num;
  dist_main_road_km : option num;
  dist_nearest_hub_km : option num;
  dist_lake_river_km : option num;
  num_health_facilities : option num;
  num_education_facilities : option num;
  geometry : option num;
  dist_to_substations : option num;
  distance_to_existing_transmission_lines : option num;
  main_road_access : option num
}.

(** The columns [run_demand_model] adds to a row. *)
Record DemandCols : Type := {
  is_urban : bool;
  hh_size : Q;
  households : Z;
  tier : Z;
  kwh_hh : num;
  lf : num;
  dem_comm : num;
  dem_res : num;
  dem_agri : num;
  dem_pub : num;
  projected_demand : num;
  projected_peak : num
}.

(** The columns [run_lcoe_model] adds to a row, together with the locals
    of the function that the statements below talk about. *)
Record LcoeCols : Type := {
  dist_grid : num;
  capex_grid : num;
  capex_mg : num;
  capex_shs : num;
  energy_delivered : num;
  lcoe_grid : num;
  lcoe_mg : num;
  lcoe_shs : num;
  min_lcoe : num;
  optimal_tech : option string;
  investment : num
}.

(* ------------------------------------------------------------------ *)
(** ** demand.py *)

Module Demand.

(** [estimate_agri_loads(row)]; [is_urban] is the row's [is_urban] cell,
    written by [run_demand_model] before the function is applied.  The
    latitude is read from a geometry that is not null (see [Settlement]). *)
Definition estimate_agri_loads (row : Settlement) (is_urban : bool)
  : result Q :=
  let demand := 0 in
  let pop := population row in
  (* Grain mills *)
  demand <-
    (if negb is_urban && (pop >? Fin 500)%num
     then n <- py_int (pop / Fin 1500) ;;
          Ok (demand + inject_Z (Z.max 1 n) * LOADS "mill")
     else Ok demand) ;;
  (* Irrigation pumps *)
  demand <-
    (if (as_num (get (dist_lake_river_km row) (PyInt 99)) <? Fin 3.0)%num
        && (pop >? Fin 300)%num
     then n <- py_int (pop / Fin 800) ;;
          Ok (demand + inject_Z (Z.max 1 n) * LOADS "irrigation")
     else Ok demand) ;;
  (* Cashew processing *)
  let lat := match geometry row with Some y => y | None => Fin 0 end in
  demand <-
    (if (lat >? Fin 8.0)%num && negb is_urban && (pop >? Fin 400)%num
     then n <- py_int (pop / Fin 2000) ;;
          Ok (demand + inject_Z (Z.max 1 n) * LOADS "dryer")
     else Ok demand) ;;
  Ok demand.

(** [(1 + ((1 + POP_GROWTH) * (1 + WEALTH_GROWTH) - 1)) ** PLANNING_HORIZON] *)
Definition growth : Q :=
  (1 + ((1 + POP_GROWTH) * (1 + WEALTH_GROWTH) - 1)) ^ PLANNING_HORIZON.

(** Section 2 of [run_demand_model]: the tier of a row. *)
Definition assign_tier (gdf : Settlement) : Z :=
  let rwi := as_num (get (mean_rwi gdf) (PyInt 0)) in
  let tier :=
    if (rwi <? Fin (-0.3))%num then 1%Z
    else if (rwi <? Fin 0.4)%num then 2%Z
    else 3%Z in
  let tier :=
    match has_nightlight gdf with
    | Some nl => if (nl >? Fin 0)%num && (tier <? 2)%Z then 2%Z else tier
    | None => tier
    end in
  let tier :=
    match dist_main_road_km gdf with
    | Some d =>
        let mask_remote := (d >? Fin 20)%num in
        if mask_remote && (tier >? 3)%Z then 3%Z else tier
    | None => tier
    end in
  tier.

(** [run_demand_model(gdf)] on one row. *)
Definition run_demand_model (gdf : Settlement) : result DemandCols :=
  (* 1. Demographics and basic classification *)
  let pop := population gdf in
  let is_urban :=
    (pop >? Fin 5000)%num
    || (as_num (get (num_buildings gdf) (PyInt 0)) >? Fin 500)%num in
  let hh_size := if is_urban then 4.3 else 5.2 in
  households <-
    astype_int (Num.clip_lower (Num.ceil (pop / Fin hh_size)) (Fin 1)) ;;
  let hh := Num.of_Z households in
  (* 2. Tier assignment *)
  let tier := assign_tier gdf in
  let kwh_hh := map_dict TIER_KWH tier in
  let lf := map_dict TIER_LF tier in
  (* 3. Commercial *)
  dist_hub <- fillna (get (dist_nearest_hub_km gdf) (Series (Fin 30))) 30 ;;
  let gravity :=
    Num.clip (Fin 1 + Fin 20.0 / (dist_hub + Fin 1)) (Fin 1) (Fin 2.5) in
  let base_sme := if is_urban then 50 else 100 in
  let sme :=
    (as_num (get (num_buildings gdf) (Series hh)) / Fin base_sme * gravity)%num
  in
  let dem_comm := (Num.ceil sme * Fin (LOADS "sme"))%num in
  let dem_comm :=
    match dist_lake_river_km gdf with
    | Some d =>
        let mask_fish := (d <? Fin 3.0)%num && (pop >? Fin 200)%num in
        if mask_fish
        then (dem_comm + Num.ceil (hh / Fin 100) * Fin (LOADS "freezer"))%num
        else dem_comm
    | None => dem_comm
    end in
  (* 4. Aggregation and projection to 2040 *)
  let uptake := if is_urban then 0.95 else TARGET_UPTAKE_2040 in
  let dem_res := (hh * kwh_hh * Fin uptake)%num in
  agri <- estimate_agri_loads gdf is_urban ;;
  let dem_agri := Fin agri in
  health <- fillna (get (num_health_facilities gdf) (PyInt 0)) 0 ;;
  education <- fillna (get (num_education_facilities gdf) (PyInt 0)) 0 ;;
  let dem_pub :=
    (health * Fin (LOADS "health") + education * Fin (LOADS "education"))%num
  in
  let total_yr0 := (dem_res + dem_comm + dem_agri + dem_pub)%num in
  let projected_demand := (total_yr0 * Fin growth)%num in
  let design_res := (hh * kwh_hh)%num in
  let design_total :=
    ((design_res + dem_comm + dem_agri + dem_pub) * Fin growth)%num in
  let projected_peak := (design_total / Fin 8760 / lf)%num in
  Ok {| is_urban := is_urban;
        hh_size := hh_size;
        households := households;
        tier := tier;
        kwh_hh := kwh_hh;
        lf := lf;
        dem_comm := dem_comm;
        dem_res := dem_res;
        dem_agri := dem_agri;
        dem_pub := dem_pub;
        projected_demand := projected_demand;
        projected_peak := projected_peak |}.

End Demand.

(* ------------------------------------------------------------------ *)
(** ** lcoe.py *)

Module Lcoe.

(** [crf(r, n)] over exact rationals, as the rest of the cost model is
    embedded: plain Python numbers, so a zero divisor raises.  The cost
    model calls it at the rate 0.08 for lives of 40, 20 and 5 years, far
    from the rates near zero where float64 rounding decides the result;
    [Float64.crf] below is the same function over binary64 floats. *)
Definition crf (r : Q) (n : Z) : result Q :=
  if Qeq_bool r 0 then
    if (n =? 0)%Z then Err ZeroDivisionError else Ok (1 / inject_Z n)
  else if Qeq_bool (1 + r) 0 && (n <? 0)%Z then Err ZeroDivisionError
  else if Qeq_bool ((1 + r) ^ n - 1) 0 then Err ZeroDivisionError
  else Ok ((r * (1 + r) ^ n) / ((1 + r) ^ n - 1)).

(** [DataFrame.idxmin(axis=1)] on one row, as pandas computes it
    ([nanops.nanargmin]): the NaN cells are filled with [+inf], and the
    label of the first occurrence of the smallest filled cell is taken.  A
    NaN cell can therefore win against a later [+inf] cell.  A row whose
    cells are all NaN has no winner: pandas up to 2.x writes a NaN label
    there ([None]), which is the reading embedded here; pandas 3 raises
    [ValueError] at this line instead. *)
Definition fill_inf (x : num) : num := if Num.isnan x then PInf else x.

Fixpoint argmin_from (best : string * num) (cols : list (string * num))
  : string :=
  match cols with
  | [] => fst best
  | (c, v) :: rest =>
      argmin_from
        (if (fill_inf v <? snd best)%num then (c, fill_inf v) else best) rest
  end.

Definition idxmin (cols : list (string * num)) : option string :=
  match cols with
  | [] => None
  | (c, v) :: rest =>
      if forallb (fun cv => Num.isnan (snd cv)) cols then None
      else Some (argmin_from (c, fill_inf v) rest)
  end.

(** [DataFrame.min(axis=1)] on one row: NaN cells skipped. *)
Definition nanmin (x y : num) : num :=
  if Num.isnan x then y
  else if Num.isnan y then x
  else if (y <? x)%num then y else x.

Definition row_min (cells : list num) : num := fold_left nanmin cells NaN.

Definition tech_labels : list (string * string) :=
  [("lcoe_grid", "Grid"); ("lcoe_mg", "MiniGrid"); ("lcoe_shs", "SHS")]%string.

(** [optimal_tech == label]; a NaN label equals no string. *)
Definition label_is (tech : option string) (label : string) : bool :=
  match tech with
  | Some t => String.eqb t label
  | None => false
  end.

(** [run_lcoe_model(gdf)] on one row: [gdf] holds the input columns of the
    row and [dem] the columns written by the demand model. *)
Definition run_lcoe_model (gdf : Settlement) (dem : DemandCols)
  : result LcoeCols :=
  (* 1. Voltage and distance logic *)
  d_sub <- fillna (get (dist_to_substations gdf) (PyInt 999)) 999 ;;
  d_lines <-
    fillna (get (distance_to_existing_transmission_lines gdf) (PyInt 999))
           999 ;;
  let penalty_km := SUBSTATION_COST / MV_COST_KM in
  let dist_grid := Num.minimum d_sub (d_lines + Fin penalty_km) in
  (* 2. Grid LCOE *)
  let peak := (projected_peak dem * Fin 0.6)%num in
  let hh := Num.of_Z (households dem) in
  let terrain_factor :=
    if (as_num (get (main_road_access gdf) (PyInt 1)) =? Fin 0)%num
    then 1.3 else 1.0 in
  let capex_grid :=
    (dist_grid * Fin MV_COST_KM * Fin terrain_factor
     + hh * Fin 0.05 * Fin LV_COST_KM
     + Num.ceil (peak / Fin 45) * Fin TRANSFORMER_COST
     + hh * Fin CONN_GRID)%num in
  crf_grid <- crf DISCOUNT_RATE 40 ;;
  let ann_grid_cap := (capex_grid * Fin crf_grid)%num in
  let ann_grid_om := (capex_grid * Fin 0.02)%num in
  let ann_grid_energy :=
    (projected_demand dem / Fin (1 - GRID_LOSS) * Fin GRID_PRICE)%num in
  let lcoe_grid :=
    ((ann_grid_cap + ann_grid_om + ann_grid_energy) / projected_demand dem)%num
  in
  (* 3. Mini-grid LCOE *)
  let daily_load := (projected_demand dem / Fin 365.0)%num in
  let pv_kw := (daily_load / Fin (CF_SOLAR * 8760 * 0.85) * Fin 1.2)%num in
  let batt_kwh := (daily_load / Fin 0.8)%num in
  let batt_rep_cost := (batt_kwh * Fin BATT_COST)%num in
  let batt_pv :=
    (batt_rep_cost / Fin ((1 + DISCOUNT_RATE) ^ 7)
     + batt_rep_cost / Fin ((1 + DISCOUNT_RATE) ^ 14))%num in
  let lv_length_km := (hh * Fin 0.1)%num in
  let lv_cost_mg := (lv_length_km * Fin LV_COST_KM)%num in
  let capex_mg :=
    (pv_kw * Fin PV_COST
     + batt_kwh * Fin BATT_COST
     + batt_pv
     + peak * Fin 1.25 * Fin INV_COST
     + hh * Fin CONN_MG
     + lv_cost_mg)%num in
  crf_mg <- crf DISCOUNT_RATE 20 ;;
  let ann_mg_cap := (capex_mg * Fin crf_mg)%num in
  let ann_mg_om := (capex_mg * Fin 0.03)%num in
  let lcoe_mg := ((ann_mg_cap + ann_mg_om) / projected_demand dem)%num in
  (* 4. SHS LCOE *)
  let tier := tier dem in
  let capex_shs := (map_dict SHS_COST tier * hh)%num in
  let cap_limit := map_dict SHS_CAP tier in
  let energy_delivered :=
    (Num.minimum (projected_demand dem / hh) cap_limit * hh)%num in
  crf_shs <- crf DISCOUNT_RATE 5 ;;
  let ann_shs_cap := (capex_shs * Fin crf_shs)%num in
  let ann_shs_om := (capex_shs * Fin 0.05)%num in
  let lcoe_shs := ((ann_shs_cap + ann_shs_om) / energy_delivered)%num in
  let has_productive :=
    (dem_comm dem >? Fin 0)%num
    || (dem_agri dem >? Fin 0)%num
    || (dem_pub dem >? Fin 0)%num in
  let mask_invalid := (tier >? MAX_TIER_SHS)%Z || has_productive in
  let lcoe_shs := if mask_invalid then Fin 999.9 else lcoe_shs in
  (* 5. Optimisation *)
  let cols :=
    [("lcoe_grid", lcoe_grid); ("lcoe_mg", lcoe_mg); ("lcoe_shs", lcoe_shs)]
      %string in
  let winner_col := idxmin cols in
  let min_lcoe := row_min (map snd cols) in
  let optimal_tech :=
    match winner_col with
    | Some c => lookup String.eqb tech_labels c
    | None => None
    end in
  let investment :=
    if label_is optimal_tech "Grid" then capex_grid
    else if label_is optimal_tech "MiniGrid" then capex_mg
    else capex_shs in
  Ok {| dist_grid := dist_grid;
        capex_grid := capex_grid;
        capex_mg := capex_mg;
        capex_shs := capex_shs;
        energy_delivered := energy_delivered;
        lcoe_grid := lcoe_grid;
        lcoe_mg := lcoe_mg;
        lcoe_shs := lcoe_shs;
        min_lcoe := min_lcoe;
        optimal_tech := optimal_tech;
        investment := investment |}.

End Lcoe.

(* ------------------------------------------------------------------ *)
(** ** lcoe.py: [crf] over binary64 floats *)

Module Float64.

Import PrimFloat.

(** [float(z)] for a Python [int]: the nearest float64, ties to even; an
    [int] beyond the float64 range raises [OverflowError]. *)
Definition float_of_int (z : Z) : result float :=
  let x :=
    FloatOps.SF2Prim
      (SpecFloat.binary_normalize FloatOps.prec FloatOps.emax z 0 false) in
  if is_infinity x then Err OverflowError else Ok x.

Section Pow.

(** The C library's [pow], which CPython calls for the bases and exponents
    it does not settle itself. *)
Variable libm_pow : float -> float -> float.

(** [v ** w] for a float [v] and an [int] [w] (CPython's [float_pow]): the
    exponent is converted to a float, the special cases are settled before
    the C library is called, and an overflow raises. *)
Definition float_pow (v : float) (w : Z) : result float :=
  iw <- float_of_int w ;;
  let iw_is_odd := Z.odd w && (Z.abs w <? 2 ^ 53)%Z in
  if (iw =? 0)%float then Ok 1%float
  else if is_nan v then Ok v
  else if is_infinity v then
    Ok (if (0 <? iw)%float
        then (if iw_is_odd then v else abs v)
        else (if iw_is_odd && (v <? 0)%float then neg_zero else zero))
  else if (v =? 0)%float then
    if (iw <? 0)%float then Err ZeroDivisionError
    else Ok (if iw_is_odd then v else zero)
  else
    let negate_result := (v <? 0)%float && iw_is_odd in
    let iv := abs v in
    if (iv =? 1)%float
    then Ok (if negate_result then (-1)%float else 1%float)
    else
      let ix := libm_pow iv iw in
      if is_infinity ix then Err OverflowError
      else Ok (if negate_result then (- ix)%float else ix).

(** [crf(r, n)] on a float rate: the operands are evaluated left to right,
    and a float division by zero raises [ZeroDivisionError]. *)
Definition crf (r : float) (n : Z) : result float :=
  if (r =? 0)%float then
    d <- float_of_int n ;;
    if (d =? 0)%float then Err ZeroDivisionError else Ok (1 / d)%float
  else
    p <- float_pow (1 + r)%float n ;;
    q <- float_pow (1 + r)%float n ;;
    if (q - 1 =? 0)%float then Err ZeroDivisionError
    else Ok (r * p / (q - 1))%float.

End Pow.

(** The float64 that the literal [1e-17] denotes. *)
Definition tiny_rate : float := 0x1.70ef54646d497p-57%float.

End Float64.

(* ------------------------------------------------------------------ *)
(** ** scripts/run_benin_pipeline.py *)

Module Pipeline.

(** The two calls of [main] on one row: demand estimation, then LCOE and
    technology selection on the table the first call returned. *)
Definition main (gdf : Settlement) : result (DemandCols * LcoeCols) :=
  dem <- Demand.run_demand_model gdf ;;
  out <- Lcoe.run_lcoe_model gdf dem ;;
  Ok (dem, out).

End Pipeline.

Import Demand Lcoe.

(* ------------------------------------------------------------------ *)
(** ** Definitions used by the statements *)

(** Rows that differ from [s] in one input column only. *)
Definition set_mean_rwi (s : Settlement) (v : option num) : Settlement :=
  {| population := population s; num_buildings := num_buildings s;
     mean_rwi := v; has_nightlight := has_nightlight s;
     dist_main_road_km := dist_main_road_km s;
     dist_nearest_hub_km := dist_nearest_hub_km s;
     dist_lake_river_km := dist_lake_river_km s;
     num_health_facilities := num_health_facilities s;
     num_education_facilities := num_education_facilities s;
     geometry := geometry s; dist_to_substations := dist_to_substations s;
     distance_to_existing_transmission_lines :=
       distance_to_existing_transmission_lines s;
     main_road_access := main_road_access s |}.

Definition set_has_nightlight (s : Settlement) (v : option num) : Settlement :=
  {| population := population s; num_buildings := num_buildings s;
     mean_rwi := mean_rwi s; has_nightlight := v;
     dist_main_road_km := dist_main_road_km s;
     dist_nearest_hub_km := dist_nearest_hub_km s;
     dist_lake_river_km := dist_lake_river_km s;
     num_health_facilities := num_health_facilities s;
     num_education_facilities := num_education_facilities s;
     geometry := geometry s; dist_to_substations := dist_to_substations s;
     distance_to_existing_transmission_lines :=
       distance_to_existing_transmission_lines s;
     main_road_access := main_road_access s |}.

Definition set_dist_main_road_km (s : Settlement) (v : option num)
  : Settlement :=
  {| population := population s; num_buildings := num_buildings s;
     mean_rwi := mean_rwi s; has_nightlight := has_nightlight s;
     dist_main_road_km := v;
     dist_nearest_hub_km := dist_nearest_hub_km s;
     dist_lake_river_km := dist_lake_river_km s;
     num_health_facilities := num_health_facilities s;
     num_education_facilities := num_education_facilities s;
     geometry := geometry s; dist_to_substations := dist_to_substations s;
     distance_to_existing_transmission_lines :=
       distance_to_existing_transmission_lines s;
     main_road_access := main_road_access s |}.

(** The geometric sum [1 + x + ... + x^(n-1)]. *)
Fixpoint geom (n : nat) (x : Q) : Q :=
  match n with
  | O => 0
  | S m => geom m x + x ^ Z.of_nat m
  end.

(** A rural settlement of 1000 people: wealth proxy -0.5, no nightlight,
    25 km from a main road, 10 km from the nearest lake or river, south of
    latitude 8, 50 km from a substation and 10 km from a transmission
    line.  The table has no [num_buildings], [dist_nearest_hub_km] or
    [main_road_access] column. *)
Definition hamlet : Settlement :=
  {| population := Fin 1000;
     num_buildings := None;
     mean_rwi := Some (Fin (-0.5));
     has_nightlight := Some (Fin 0);
     dist_main_road_km := Some (Fin 25);
     dist_nearest_hub_km := None;
     dist_lake_river_km := Some (Fin 10);
     num_health_facilities := Some (Fin 0);
     num_education_facilities := Some (Fin 0);
     geometry := Some (Fin 7);
     dist_to_substations := Some (Fin 50);
     distance_to_existing_transmission_lines := Some (Fin 10);
     main_road_access := None |}.

(** The same settlement in a table without the two facility-count
    columns, and in a table without the two grid-distance columns. *)
Definition hamlet_without_facility_counts : Settlement :=
  {| population := Fin 1000;
     num_buildings := None;
     mean_rwi := Some (Fin (-0.5));
     has_nightlight := Some (Fin 0);
     dist_main_road_km := Some (Fin 25);
     dist_nearest_hub_km := None;
     dist_lake_river_km := Some (Fin 10);
     num_health_facilities := None;
     num_education_facilities := None;
     geometry := Some (Fin 7);
     dist_to_substations := Some (Fin 50);
     distance_to_existing_transmission_lines := Some (Fin 10);
     main_road_access := None |}.

Definition hamlet_without_grid_distances : Settlement :=
  {| population := Fin 1000;
     num_buildings := None;
     mean_rwi := Some (Fin (-0.5));
     has_nightlight := Some (Fin 0);
     dist_main_road_km := Some (Fin 25);
     dist_nearest_hub_km := None;
     dist_lake_river_km := Some (Fin 10);
     num_health_facilities := Some (Fin 0);
     num_education_facilities := Some (Fin 0);
     geometry := Some (Fin 7);
     dist_to_substations := None;
     distance_to_existing_transmission_lines := None;
     main_road_access := None |}.

(** The mini-grid capital cost as the sum of its six components, for an
    inverter sized on [inverter_peak] kW: PV, battery, the two discounted
    battery replacements, inverter, connections and local LV network. *)
Definition capex_mg_formula (inverter_peak demand : Q) (hh : Z) : Q :=
  let daily_load := demand / 365 in
  let pv_cost := daily_load / (CF_SOLAR * 8760 * 0.85) * 1.2 * PV_COST in
  let battery_cost := daily_load / 0.8 * BATT_COST in
  let replacements :=
    battery_cost / (1 + DISCOUNT_RATE) ^ 7
    + battery_cost / (1 + DISCOUNT_RATE) ^ 14 in
  pv_cost + battery_cost + replacements
  + inverter_peak * 1.25 * INV_COST
  + inject_Z hh * CONN_MG
  + inject_Z hh * 0.1 * LV_COST_KM.

(** Unwrapping a result that is known to be [Ok]. *)
Definition from_ok {A : Type} (default : A) (r : result A) : A :=
  match r with
  | Ok a => a
  | Err _ => default
  end.

Definition no_demand : DemandCols :=
  {| is_urban := false; hh_size := 5.2; households := 0; tier := 0;
     kwh_hh := NaN; lf := NaN; dem_comm := NaN; dem_res := NaN;
     dem_agri := NaN; dem_pub := NaN; projected_demand := NaN;
     projected_peak := NaN |}.

Definition no_lcoe : LcoeCols :=
  {| dist_grid := NaN; capex_grid := NaN; capex_mg := NaN; capex_shs := NaN;
     energy_delivered := NaN; lcoe_grid := NaN; lcoe_mg := NaN;
     lcoe_shs := NaN; min_lcoe := NaN; optimal_tech := None;
     investment := NaN |}.

(** What the two models write for [hamlet]. *)
Definition hamlet_demand : DemandCols :=
  from_ok no_demand (run_demand_model hamlet).

Definition hamlet_lcoe : LcoeCols :=
  from_ok no_lcoe (run_lcoe_model hamlet hamlet_demand).

(** A table row handed to [run_lcoe_model] directly: 1000 households of
    tier 4 with a projected demand of 50 kWh a year in all, no commercial,
    agricultural or public demand, 999 km from any substation or line. *)
Definition remote_row : Settlement :=
  {| population := Fin 5000;
     num_buildings := None;
     mean_rwi := None;
     has_nightlight := None;
     dist_main_road_km := None;
     dist_nearest_hub_km := None;
     dist_lake_river_km := None;
     num_health_facilities := None;
     num_education_facilities := None;
     geometry := None;
     dist_to_substations := Some (Fin 999);
     distance_to_existing_transmission_lines := Some (Fin 999);
     main_road_access := None |}.

Definition tier4_demand : DemandCols :=
  {| is_urban := false; hh_size := 5.2; households := 1000; tier := 4;
     kwh_hh := Fin 2200; lf := Fin 0.30;
     dem_comm := Fin 0; dem_res := Fin 50; dem_agri := Fin 0;
     dem_pub := Fin 0;
     projected_demand := Fin 50; projected_peak := Fin 0.02 |}.

(** A count cell: a non-negative number, or null. *)
Definition count_cell (x : num) : Prop :=
  match x with
  | Fin q => 0 <= q
  | NaN => True
  | _ => False
  end.

(** Rows the pipeline is meant for: a non-negative population, a
    non-negative building count where the table has the column, and both
    facility-count columns present with non-negative or null cells. *)
Definition well_formed (s : Settlement) : Prop :=
  (exists p, population s = Fin p /\ 0 <= p)
  /\ match num_buildings s with
     | None => True
     | Some (Fin q) => 0 <= q
     | Some _ => False
     end
  /\ (exists h, num_health_facilities s = Some h /\ count_cell h)
  /\ (exists e, num_education_facilities s = Some e /\ count_cell e).

(** A table row handed to [run_lcoe_model] directly: a plot nobody lives
    on, counted as one tier-1 household with no demand at all, 10 km from
    a substation. *)
Definition vacant_row : Settlement :=
  {| population := Fin 0;
     num_buildings := None;
     mean_rwi := None;
     has_nightlight := None;
     dist_main_road_km := None;
     dist_nearest_hub_km := None;
     dist_lake_river_km := None;
     num_health_facilities := None;
     num_education_facilities := None;
     geometry := None;
     dist_to_substations := Some (Fin 10);
     distance_to_existing_transmission_lines := Some (Fin 10);
     main_road_access := None |}.

Definition zero_demand : DemandCols :=
  {| is_urban := false; hh_size := 5.2; households := 1; tier := 1;
     kwh_hh := Fin 35; lf := Fin 0.18;
     dem_comm := Fin 0; dem_res := Fin 0; dem_agri := Fin 0;
     dem_pub := Fin 0;
     projected_demand := Fin 0; projected_peak := Fin 0 |}.

(** Both grid-distance columns are in the table, with non-negative or
    null cells. *)
Definition has_grid_distances (s : Settlement) : Prop :=
  (exists a, dist_to_substations s = Some a /\ count_cell a)
  /\ (exists b,
        distance_to_existing_transmission_lines s = Some b /\ count_cell b).

(** The mask of [run_lcoe_model]: a tier above the solar-kit ceiling, or a
    positive commercial, agricultural or public demand. *)
Definition shs_ineligible (dem : DemandCols) : Prop :=
  (MAX_TIER_SHS < tier dem)%Z
  \/ (dem_comm dem >? Fin 0)%num = true
  \/ (dem_agri dem >? Fin 0)%num = true
  \/ (dem_pub dem >? Fin 0)%num = true.


(** Rows that differ from [s] in the population, or in the substation
    distance, only. *)
Definition set_population (s : Settlement) (v : num) : Settlement :=
  {| population := v; num_buildings := num_buildings s;
     mean_rwi := mean_rwi s; has_nightlight := has_nightlight s;
     dist_main_road_km := dist_main_road_km s;
     dist_nearest_hub_km := dist_nearest_hub_km s;
     dist_lake_river_km := dist_lake_river_km s;
     num_health_facilities := num_health_facilities s;
     num_education_facilities := num_education_facilities s;
     geometry := geometry s; dist_to_substations := dist_to_substations s;
     distance_to_existing_transmission_lines :=
       distance_to_existing_transmission_lines s;
     main_road_access := main_road_access s |}.

Definition set_dist_to_substations (s : Settlement) (v : option num)
  : Settlement :=
  {| population := population s; num_buildings := num_buildings s;
     mean_rwi := mean_rwi s; has_nightlight := has_nightlight s;
     dist_main_road_km := dist_main_road_km s;
     dist_nearest_hub_km := dist_nearest_hub_km s;
     dist_lake_river_km := dist_lake_river_km s;
     num_health_facilities := num_health_facilities s;
     num_education_facilities := num_education_facilities s;
     geometry := geometry s; dist_to_substations := v;
     distance_to_existing_transmission_lines :=
       distance_to_existing_transmission_lines s;
     main_road_access := main_road_access s |}.

(** One agricultural rule of [estimate_agri_loads]: nothing unless the
    rule fires, else [max(1, int(pop / divisor))] units of [load]. *)
Definition agri_rule (fires : bool) (pop divisor load : Q) : Q :=
  if fires then inject_Z (Z.max 1 (Qfloor (pop / divisor))) * load else 0.

(** The conditions of the three rules for a row of finite population. *)
Definition mill_fires (urban : bool) (pop : Q) : bool :=
  negb urban && Num.Qltb 500 pop.

Definition irrigation_fires (row : Settlement) (pop : Q) : bool :=
  (as_num (get (dist_lake_river_km row) (PyInt 99)) <? Fin 3.0)%num
  && Num.Qltb 300 pop.

Definition dryer_fires (row : Settlement) (urban : bool) (pop : Q) : bool :=
  (match geometry row with Some y => y | None => Fin 0 end >? Fin 8.0)%num
  && negb urban && Num.Qltb 400 pop.

(** A table row handed to [run_lcoe_model] directly: four tier-1
    households with residential demand only, 220 kWh a year in all. *)
Definition kit_demand : DemandCols :=
  {| is_urban := false; hh_size := 5.2; households := 4; tier := 1;
     kwh_hh := Fin 35; lf := Fin 0.18;
     dem_comm := Fin 0; dem_res := Fin 119; dem_agri := Fin 0;
     dem_pub := Fin 0;
     projected_demand := Fin 220; projected_peak := Fin 0.2 |}.

(** The terrain factor of a row, and the part of the grid capital cost
    that does not depend on the distance: LV network, transformers and
    connections, for a design peak of [peak] kW. *)
Definition terrain_factor_of (gdf : Settlement) : Q :=
  if (as_num (get (main_road_access gdf) (PyInt 1)) =? Fin 0)%num
  then 1.3 else 1.0.

Definition grid_local_cost (hh : Z) (peak : Q) : Q :=
  inject_Z hh * 0.05 * LV_COST_KM
  + inject_Z (Qceiling (peak * 0.6 / 45)) * TRANSFORMER_COST
  + inject_Z hh * CONN_GRID.

(** What the cost model writes for [kit_demand] on [vacant_row]. *)
Definition kit_lcoe : LcoeCols :=
  from_ok no_lcoe (run_lcoe_model vacant_row kit_demand).

(** The settlement [hamlet] in a table that has a [num_buildings] column
    whose cell for this row is null, and the same row with a population
    of 250. *)
Definition hamlet_null_buildings : Settlement :=
  {| population := Fin 1000;
     num_buildings := Some NaN;
     mean_rwi := Some (Fin (-0.5));
     has_nightlight := Some (Fin 0);
     dist_main_road_km := Some (Fin 25);
     dist_nearest_hub_km := None;
     dist_lake_river_km := Some (Fin 10);
     num_health_facilities := Some (Fin 0);
     num_education_facilities := Some (Fin 0);
     geometry := Some (Fin 7);
     dist_to_substations := Some (Fin 50);
     distance_to_existing_transmission_lines := Some (Fin 10);
     main_road_access := None |}.



(* ------------------------------------------------------------------ *)
(** ** Proof tools *)

Ltac bind_ok H :=
  unfold bind in H;
  repeat match type of H with
         | match ?c with Ok _ => _ | Err _ => _ end = Ok _ =>
             let E := fresh "E" in destruct c eqn:E; [| discriminate H]
         end.

Lemma Ok_inj {A : Type} (a b : A) : Ok a = Ok b -> a = b.
Proof. intros H. injection H as H. exact H. Qed.

Lemma Qltb_true (a b : Q) : Num.Qltb a b = true <-> a < b.
Proof.
  unfold Num.Qltb. destruct (Qcompare_spec a b); split; intros;
    try congruence; try lra.
Qed.

Lemma Qltb_false (a b : Q) : Num.Qltb a b = false <-> b <= a.
Proof.
  unfold Num.Qltb. destruct (Qcompare_spec a b); split; intros;
    try congruence; try lra.
Qed.


(* ------------------------------------------------------------------ *)
(** ** The capital recovery factor *)

Lemma Qpower_succ (x : Q) (m : nat) : x ^ Z.of_nat (S m) == x * x ^ Z.of_nat m.
Proof.
  rewrite Nat2Z.inj_succ. unfold Z.succ.
  destruct (Qeq_dec x 0) as [E | E].
  - rewrite E. rewrite Qpower_0 by lia. ring.
  - rewrite Qpower_plus by exact E. simpl (x ^ 1). ring.
Qed.

Lemma geom_telescope (n : nat) (x : Q) : (x - 1) * geom n x == x ^ Z.of_nat n - 1.
Proof.
  induction n as [| m IH].
  - simpl. ring.
  - cbn [geom]. rewrite Qpower_succ.
    setoid_replace ((x - 1) * (geom m x + x ^ Z.of_nat m))
      with ((x - 1) * geom m x + (x - 1) * x ^ Z.of_nat m) by ring.
    rewrite IH. ring.
Qed.

Lemma geom_pos (n : nat) (x : Q) : 0 < x -> (0 < n)%nat -> 0 < geom n x.
Proof.
  intros Hx Hn. destruct n as [| m]; [lia |]. clear Hn.
  induction m as [| k IH].
  - simpl. lra.
  - cbn [geom] in *. assert (0 < x ^ Z.of_nat (S k)) by (apply Qpower_0_lt; exact Hx).
    lra.
Qed.

Lemma geom_one (n : nat) : geom n 1 == inject_Z (Z.of_nat n).
Proof.
  induction n as [| m IH].
  - reflexivity.
  - cbn [geom]. rewrite IH, Qpower_1, Nat2Z.inj_succ. unfold Z.succ.
    rewrite inject_Z_plus. reflexivity.
Qed.

Lemma geom_cross (n : nat) (x y : Q) :
  0 < x -> x <= y ->
  x ^ Z.of_nat n * geom n y <= y ^ Z.of_nat n * geom n x.
Proof.
  intros Hx Hxy. induction n as [| m IH].
  - simpl. lra.
  - cbn [geom]. rewrite !Qpower_succ.
    assert (Px : 0 < x ^ Z.of_nat m) by (apply Qpower_0_lt; lra).
    assert (Py : 0 < y ^ Z.of_nat m) by (apply Qpower_0_lt; lra).
    assert (Gx : 0 <= geom m x).
    { destruct m; [simpl; lra | apply Qlt_le_weak, geom_pos; [lra | lia]]. }
    assert (Gy : 0 <= geom m y).
    { destruct m; [simpl; lra | apply Qlt_le_weak, geom_pos; [lra | lia]]. }
    set (a := x ^ Z.of_nat m) in *. set (b := y ^ Z.of_nat m) in *.
    set (A := geom m y) in *. set (B := geom m x) in *.
    assert (H1 : 0 <= a * A) by (apply Qmult_le_0_compat; lra).
    assert (H2 : 0 < a * b) by (apply Qmult_lt_0_compat; lra).
    assert (H3 : x * (a * A) <= y * (a * A)) by (apply Qmult_le_compat_r; lra).
    assert (H4 : y * (a * A) <= y * (b * B)) by (apply Qmult_le_l; lra).
    assert (H5 : x * (a * b) <= y * (a * b)) by (apply Qmult_le_compat_r; lra).
    lra.
Qed.

Lemma geom_cross_strict (m : nat) (x y : Q) :
  0 < x -> x < y ->
  x ^ Z.of_nat (S m) * geom (S m) y < y ^ Z.of_nat (S m) * geom (S m) x.
Proof.
  intros Hx Hxy. cbn [geom]. rewrite !Qpower_succ.
  pose proof (geom_cross m x y Hx (Qlt_le_weak _ _ Hxy)) as IH.
  assert (Px : 0 < x ^ Z.of_nat m) by (apply Qpower_0_lt; lra).
  assert (Py : 0 < y ^ Z.of_nat m) by (apply Qpower_0_lt; lra).
  assert (Gy : 0 <= geom m y).
  { destruct m; [simpl; lra | apply Qlt_le_weak, geom_pos; [lra | lia]]. }
  set (a := x ^ Z.of_nat m) in *. set (b := y ^ Z.of_nat m) in *.
  set (A := geom m y) in *. set (B := geom m x) in *.
  assert (H1 : 0 <= a * A) by (apply Qmult_le_0_compat; lra).
  assert (H2 : 0 < a * b) by (apply Qmult_lt_0_compat; lra).
  assert (H3 : x * (a * A) <= y * (a * A)) by (apply Qmult_le_compat_r; lra).
  assert (H4 : y * (a * A) <= y * (b * B)) by (apply Qmult_le_l; lra).
  assert (H5 : x * (a * b) < y * (a * b)) by (apply Qmult_lt_compat_r; lra).
  lra.
Qed.

(** For [r >= 0] and [n > 0], [crf] returns, and its value [v] is the
    quotient of [(1+r)^n] by the geometric sum [1 + (1+r) + ... + (1+r)^(n-1)]. *)
Lemma crf_geom (r : Q) (n : Z) :
  0 <= r -> (0 < n)%Z ->
  exists v, crf r n = Ok v /\
            v * geom (Z.to_nat n) (1 + r) == (1 + r) ^ n.
Proof.
  intros Hr Hn. unfold crf.
  assert (Hnat : Z.of_nat (Z.to_nat n) = n) by lia.
  destruct (Qeq_bool r 0) eqn:E0.
  - apply Qeq_bool_iff in E0.
    destruct (Z.eqb_spec n 0) as [-> | _]; [lia |].
    eexists; split; [reflexivity |].
    assert (E1 : 1 + r == 1) by (rewrite E0; ring).
    assert (EG : geom (Z.to_nat n) (1 + r) == inject_Z n).
    { rewrite <- Hnat at 2. rewrite <- geom_one.
      clear - E1. induction (Z.to_nat n) as [| m IH]; [reflexivity |].
      cbn [geom]. rewrite IH, E1. reflexivity. }
    rewrite EG, E1, Qpower_1.
    assert (Hz : ~ inject_Z n == 0).
    { intros C. assert (0 < inject_Z n) by (unfold inject_Z, Qlt; simpl; lia). lra. }
    field. exact Hz.
  - apply Qeq_bool_neq in E0.
    assert (Hr' : 0 < r).
    { destruct (Qlt_le_dec 0 r) as [L | L]; [exact L |].
      exfalso. apply E0. lra. }
    assert (Hp : 1 < (1 + r) ^ n) by (apply Qpower_1_lt; [lra | lia]).
    destruct (Qeq_bool (1 + r) 0) eqn:E1.
    { apply Qeq_bool_iff in E1. lra. }
    cbn [andb].
    destruct (Qeq_bool ((1 + r) ^ n - 1) 0) eqn:E2.
    { apply Qeq_bool_iff in E2. lra. }
    eexists; split; [reflexivity |].
    pose proof (geom_telescope (Z.to_nat n) (1 + r)) as T.
    rewrite Hnat in T.
    set (p := (1 + r) ^ n) in *. set (G := geom (Z.to_nat n) (1 + r)) in *.
    assert (T' : r * G == p - 1) by (rewrite <- T; ring).
    setoid_replace (r * p / (p - 1) * G) with (p * (r * G) / (p - 1))
      by (field; lra).
    rewrite T'. field. lra.
Qed.

Lemma crf_pos (r : Q) (n : Z) :
  0 <= r -> (0 < n)%Z -> exists v, crf r n = Ok v /\ 0 < v.
Proof.
  intros Hr Hn. destruct (crf_geom r n Hr Hn) as (v & Hv & HG).
  exists v; split; [exact Hv |].
  assert (G : 0 < geom (Z.to_nat n) (1 + r)) by (apply geom_pos; [lra | lia]).
  assert (P : 0 < (1 + r) ^ n) by (apply Qpower_0_lt; lra).
  destruct (Qlt_le_dec 0 v) as [L | L]; [exact L | exfalso].
  assert (v * geom (Z.to_nat n) (1 + r) <= 0 * geom (Z.to_nat n) (1 + r))
    by (apply Qmult_le_compat_r; lra).
  lra.
Qed.

Lemma crf_monotone (r1 r2 : Q) (n : Z) (v1 v2 : Q) :
  (0 < n)%Z -> 0 <= r1 -> r1 <= r2 ->
  crf r1 n = Ok v1 -> crf r2 n = Ok v2 ->
  v1 <= v2 /\ (r1 < r2 -> v1 < v2).
Proof.
  intros Hn H1 H12 E1 E2.
  destruct (crf_geom r1 n H1 Hn) as (w1 & W1 & G1).
  destruct (crf_geom r2 n) as (w2 & W2 & G2); [lra | exact Hn |].
  rewrite E1 in W1. rewrite E2 in W2.
  injection W1 as <-. injection W2 as <-.
  assert (Hnat : Z.of_nat (Z.to_nat n) = n) by lia.
  destruct (Z.to_nat n) as [| m] eqn:Em; [lia |].
  assert (P1 : 0 < geom (S m) (1 + r1)) by (apply geom_pos; [lra | lia]).
  assert (P2 : 0 < geom (S m) (1 + r2)) by (apply geom_pos; [lra | lia]).
  assert (PP : 0 < geom (S m) (1 + r1) * geom (S m) (1 + r2))
    by (apply Qmult_lt_0_compat; assumption).
  pose proof (geom_cross (S m) (1 + r1) (1 + r2)) as C.
  rewrite Hnat in C.
  set (g1 := geom (S m) (1 + r1)) in *. set (g2 := geom (S m) (1 + r2)) in *.
  set (p1 := (1 + r1) ^ n) in *. set (p2 := (1 + r2) ^ n) in *.
  split.
  - assert (C' : p1 * g2 <= p2 * g1) by (apply C; lra).
    destruct (Qlt_le_dec v2 v1) as [L | L]; [exfalso | exact L].
    assert (v2 * (g1 * g2) < v1 * (g1 * g2)) by (apply Qmult_lt_compat_r; lra).
    assert (v1 * (g1 * g2) == p1 * g2) by (rewrite <- G1; ring).
    assert (v2 * (g1 * g2) == p2 * g1) by (rewrite <- G2; ring).
    lra.
  - intros Hlt.
    pose proof (geom_cross_strict m (1 + r1) (1 + r2)) as S.
    rewrite Hnat in S. fold g1 g2 p1 p2 in S.
    assert (S' : p1 * g2 < p2 * g1) by (apply S; lra).
    destruct (Qlt_le_dec v1 v2) as [L | L]; [exact L | exfalso].
    assert (v2 * (g1 * g2) <= v1 * (g1 * g2)) by (apply Qmult_le_compat_r; lra).
    assert (v1 * (g1 * g2) == p1 * g2) by (rewrite <- G1; ring).
    assert (v2 * (g1 * g2) == p2 * g1) by (rewrite <- G2; ring).
    lra.
Qed.

(** The annuity formula over exact rationals: [crf(0, n)] is [1/n] for
    every [n > 0]; for every [r >= 0] and [n > 0] the value is positive;
    and for a fixed [n > 0] and a capital cost that is not negative,
    [capital * crf(r, n)] does not decrease when the rate grows over
    [r >= 0], and strictly increases when the capital cost is positive. *)
Lemma crf_exact_properties :
  (forall n : Z, (0 < n)%Z -> crf 0 n = Ok (1 / inject_Z n)) /\
  (forall (r : Q) (n : Z), 0 <= r -> (0 < n)%Z ->
     exists v, crf r n = Ok v /\ 0 < v) /\
  (forall (capital r1 r2 : Q) (n : Z),
     (0 < n)%Z -> 0 <= capital -> 0 <= r1 -> r1 <= r2 ->
     exists v1 v2,
       crf r1 n = Ok v1 /\ crf r2 n = Ok v2 /\
       capital * v1 <= capital * v2 /\
       (0 < capital -> r1 < r2 -> capital * v1 < capital * v2)).
Proof.
  split; [| split].
  - intros n Hn. unfold crf. cbn [Qeq_bool].
    destruct (Z.eqb_spec n 0); [lia | reflexivity].
  - exact crf_pos.
  - intros capital r1 r2 n Hn Hc H1 H12.
    destruct (crf_pos r1 n H1 Hn) as (v1 & E1 & _).
    destruct (crf_pos r2 n) as (v2 & E2 & _); [lra | exact Hn |].
    destruct (crf_monotone r1 r2 n v1 v2 Hn H1 H12 E1 E2) as [Hle Hlt].
    exists v1, v2. repeat split; try assumption.
    + assert (0 <= capital * (v2 - v1)) by (apply Qmult_le_0_compat; lra).
      lra.
    + intros Hcp Hr. apply Qmult_lt_l; [exact Hcp | apply Hlt, Hr].
Qed.

(* ------------------------------------------------------------------ *)
(** ** Capital recovery factor: the float64 function *)

(** For a rate that is not zero and that float64 addition absorbs into 1,
    the guard [r == 0] does not fire and the divisor [(1 + r) ** n - 1] is
    zero: the call raises, whatever the life. *)
Lemma crf_absorbed_rate_raises
    (libm_pow : PrimFloat.float -> PrimFloat.float -> PrimFloat.float)
    (r : PrimFloat.float) (n : Z) (x : PrimFloat.float) :
  PrimFloat.eqb r PrimFloat.zero = false ->
  PrimFloat.add PrimFloat.one r = PrimFloat.one ->
  Float64.float_of_int n = Ok x ->
  Float64.crf libm_pow r n = Err ZeroDivisionError.
Proof.
  intros H0 H1 Hn. unfold PrimFloat.zero, PrimFloat.one in H0, H1.
  unfold Float64.crf. rewrite H0, H1.
  unfold Float64.float_pow. rewrite Hn. cbn [bind].
  destruct (PrimFloat.eqb x _); reflexivity.
Qed.

(** C7, evaluated on the code.  The specification has [crf(r, n) > 0] for
    every [r >= 0] and [n > 0].  [crf] guards the zero divisor for
    [r == 0] only: for the positive rate [1e-17] and a life of 10 years,
    [1 + r] rounds to 1, [(1 + r) ** n - 1] is zero, and the call raises
    [ZeroDivisionError], whatever the C library's [pow] returns elsewhere.
    Over exact rationals the same formula gives a positive value at this
    rate. *)
Theorem crf_tiny_rate_raises :
  forall libm_pow : PrimFloat.float -> PrimFloat.float -> PrimFloat.float,
    PrimFloat.ltb PrimFloat.zero Float64.tiny_rate = true
    /\ Float64.crf libm_pow Float64.tiny_rate 10 = Err ZeroDivisionError
    /\ exists v, crf (1 # 100000000000000000) 10 = Ok v /\ 0 < v.
Proof.
  intros libm_pow. split; [reflexivity |]. split.
  - eapply crf_absorbed_rate_raises; reflexivity.
  - apply crf_pos; [| lia]. unfold Qle. simpl. lia.
Qed.

(* ------------------------------------------------------------------ *)
(** ** Tier assignment *)

(** The base tier, read off the wealth proxy alone. *)
Lemma base_tier_mono (x y : num) :
  Num.le x y ->
  ((if (x <? Fin (-0.3))%num then 1 else if (x <? Fin 0.4)%num then 2 else 3)
   <= (if (y <? Fin (-0.3))%num then 1 else if (y <? Fin 0.4)%num then 2 else 3))%Z.
Proof.
  intros H.
  destruct x as [a | | |], y as [b | | |]; simpl in H; try contradiction;
    cbn [Num.lt]; try lia.
  - destruct (Num.Qltb a (-0.3)) eqn:A1, (Num.Qltb b (-0.3)) eqn:B1;
      destruct (Num.Qltb a 0.4) eqn:A2, (Num.Qltb b 0.4) eqn:B2; try lia;
      rewrite ?Qltb_true, ?Qltb_false in *; lra.
  - destruct (Num.Qltb a (-0.3)), (Num.Qltb a 0.4); lia.
  - destruct (Num.Qltb b (-0.3)), (Num.Qltb b 0.4); lia.
Qed.

Lemma assign_tier_range (s : Settlement) :
  assign_tier s = 1%Z \/ assign_tier s = 2%Z \/ assign_tier s = 3%Z.
Proof.
  unfold assign_tier.
  destruct (as_num (get (mean_rwi s) (PyInt 0)) <? Fin (-0.3))%num;
    [| destruct (as_num (get (mean_rwi s) (PyInt 0)) <? Fin 0.4)%num];
    destruct (has_nightlight s) as [nl |]; try destruct (nl >? Fin 0)%num;
    destruct (dist_main_road_km s) as [d |]; try destruct (d >? Fin 20)%num;
    cbn; auto.
Qed.

Lemma run_demand_model_tier (s : Settlement) (d : DemandCols) :
  run_demand_model s = Ok d -> tier d = assign_tier s.
Proof.
  intros H. unfold run_demand_model in H. bind_ok H.
  injection H as <-. reflexivity.
Qed.

(** C6.  The tier written by the demand model is 1, 2 or 3.  With every
    other column fixed it is monotone non-decreasing in the wealth proxy
    [mean_rwi].  A nightlight cell changes the tier a row has without the
    nightlight column only when that tier is 1 and the cell is positive,
    and then to 2, so it never lowers a tier nor touches tier 2 or 3.  The
    road-distance column never changes the tier: its cap applies to tiers
    above 3 only, and there are none. *)
Theorem tier_invariants :
  (forall s d, run_demand_model s = Ok d ->
     tier d = assign_tier s /\ (tier d = 1 \/ tier d = 2 \/ tier d = 3)%Z) /\
  (forall s x y, Num.le x y ->
     (assign_tier (set_mean_rwi s (Some x))
      <= assign_tier (set_mean_rwi s (Some y)))%Z) /\
  (forall s nl,
     let without := assign_tier (set_has_nightlight s None) in
     assign_tier (set_has_nightlight s (Some nl)) =
       if (nl >? Fin 0)%num && (without =? 1)%Z then 2%Z else without) /\
  (forall s km,
     assign_tier (set_dist_main_road_km s (Some km)) =
     assign_tier (set_dist_main_road_km s None)).
Proof.
  split; [| split; [| split]].
  - intros s d H. rewrite (run_demand_model_tier s d H).
    split; [reflexivity | apply assign_tier_range].
  - intros s x y Hxy. unfold assign_tier. cbn [mean_rwi set_mean_rwi get as_num
      has_nightlight dist_main_road_km].
    pose proof (base_tier_mono x y Hxy) as M.
    destruct (x <? Fin (-0.3))%num; [| destruct (x <? Fin 0.4)%num];
      (destruct (y <? Fin (-0.3))%num; [| destruct (y <? Fin 0.4)%num]);
      try lia;
      destruct (has_nightlight s) as [nl |]; try destruct (nl >? Fin 0)%num;
      destruct (dist_main_road_km s) as [d |]; try destruct (d >? Fin 20)%num;
      cbn; lia.
  - intros s nl. unfold assign_tier.
    cbn [mean_rwi set_has_nightlight has_nightlight dist_main_road_km].
    destruct (as_num (get (mean_rwi s) (PyInt 0)) <? Fin (-0.3))%num;
      [| destruct (as_num (get (mean_rwi s) (PyInt 0)) <? Fin 0.4)%num];
      destruct (nl >? Fin 0)%num;
      destruct (dist_main_road_km s) as [d |]; try destruct (d >? Fin 20)%num;
      reflexivity.
  - intros s km. unfold assign_tier.
    cbn [mean_rwi set_dist_main_road_km has_nightlight dist_main_road_km].
    destruct (as_num (get (mean_rwi s) (PyInt 0)) <? Fin (-0.3))%num;
      [| destruct (as_num (get (mean_rwi s) (PyInt 0)) <? Fin 0.4)%num];
      destruct (has_nightlight s) as [nl |]; try destruct (nl >? Fin 0)%num;
      destruct (km >? Fin 20)%num; reflexivity.
Qed.

Lemma tier_invariants_witness :
  (tier (from_ok no_demand (run_demand_model hamlet)) = assign_tier hamlet
   /\ (tier (from_ok no_demand (run_demand_model hamlet)) = 1
       \/ tier (from_ok no_demand (run_demand_model hamlet)) = 2
       \/ tier (from_ok no_demand (run_demand_model hamlet)) = 3)%Z)
  /\ (assign_tier (set_mean_rwi hamlet (Some (Fin (-0.5))))
      <= assign_tier (set_mean_rwi hamlet (Some (Fin 0.5))))%Z
  /\ assign_tier (set_has_nightlight hamlet (Some (Fin 1))) = 2%Z
  /\ assign_tier (set_dist_main_road_km hamlet (Some (Fin 25)))
     = assign_tier (set_dist_main_road_km hamlet None).
Proof.
  destruct tier_invariants as (T1 & T2 & T3 & T4).
  split; [| split; [| split]].
  - apply (T1 hamlet). vm_compute. reflexivity.
  - apply (T2 hamlet). vm_compute. discriminate.
  - rewrite (T3 hamlet (Fin 1)). reflexivity.
  - apply (T4 hamlet).
Defined.

(* ------------------------------------------------------------------ *)
(** ** The cost model: when it returns *)

Lemma div_Fin (a b : Q) : ~ b == 0 -> (Fin a / Fin b)%num = Fin (a / b).
Proof.
  intros Hb. unfold Num.div.
  destruct (Qcompare_spec b 0) as [E | L | L]; [contradiction | | ]; reflexivity.
Qed.

Lemma crf_discount_ok (n : Z) :
  (0 < n)%Z -> exists v, crf DISCOUNT_RATE n = Ok v /\ 0 < v.
Proof.
  intros Hn. apply crf_pos; [unfold DISCOUNT_RATE; lra | exact Hn].
Qed.

Lemma fillna_present (x : num) (z : Z) (value : Q) :
  fillna (get (Some x) (PyInt z)) value
  = Ok (if Num.isnan x then Fin value else x).
Proof. reflexivity. Qed.

Lemma fillna_not_nan (obj : pyobj) (value : Q) (x : num) :
  fillna obj value = Ok x -> Num.isnan x = false.
Proof.
  destruct obj as [z | y]; simpl; [discriminate |].
  intros H. injection H as <-. destruct y; reflexivity.
Qed.

(** With both grid-distance columns in the table the cost model returns. *)
Lemma run_lcoe_model_total (gdf : Settlement) (dem : DemandCols) (a b : num) :
  dist_to_substations gdf = Some a ->
  distance_to_existing_transmission_lines gdf = Some b ->
  exists out, run_lcoe_model gdf dem = Ok out.
Proof.
  intros Ha Hb. unfold run_lcoe_model. rewrite Ha, Hb, !fillna_present.
  destruct (crf_discount_ok 40) as (c40 & -> & _); [lia |].
  destruct (crf_discount_ok 20) as (c20 & -> & _); [lia |].
  destruct (crf_discount_ok 5) as (c5 & -> & _); [lia |].
  unfold bind. eexists. reflexivity.
Qed.

Ltac lcoe_inv H :=
  unfold run_lcoe_model in H; bind_ok H; apply Ok_inj in H; subst.

(* ------------------------------------------------------------------ *)
(** ** Effective grid distance *)

Lemma minimum_Fin (a b : Q) :
  exists v, Num.minimum (Fin a) (Fin b) = Fin v /\ v == Qmin a b.
Proof.
  unfold Num.minimum, Num.lt.
  destruct (Num.Qltb b a) eqn:E.
  - apply Qltb_true in E. exists b. split; [reflexivity |].
    symmetry. apply Q.min_r. lra.
  - apply Qltb_false in E. exists a. split; [reflexivity |].
    symmetry. apply Q.min_l. exact E.
Qed.

Lemma run_lcoe_model_dist_grid (gdf : Settlement) (dem : DemandCols)
    (out : LcoeCols) (d_sub d_lines : num) :
  run_lcoe_model gdf dem = Ok out ->
  dist_to_substations gdf = Some d_sub ->
  distance_to_existing_transmission_lines gdf = Some d_lines ->
  dist_grid out =
    Num.minimum (if Num.isnan d_sub then Fin 999 else d_sub)
                ((if Num.isnan d_lines then Fin 999 else d_lines)
                 + Fin (SUBSTATION_COST / MV_COST_KM)).
Proof.
  intros H Ha Hb. unfold run_lcoe_model in H.
  rewrite Ha, Hb, !fillna_present in H. cbn [bind] in H.
  bind_ok H. injection H as <-. reflexivity.
Qed.

(** C8.  For every row, the effective grid distance is the minimum of the
    distance to a substation and of the distance to a transmission line
    plus the penalty [SUBSTATION_COST / MV_COST_KM] km, a null cell of
    either column counting as 999 km; for a substation at 50 km and a line
    at 10 km it is [10 + 500000/14000], about 45.7 km. *)
Theorem effective_grid_distance :
  (forall gdf dem (a b : Q),
     dist_to_substations gdf = Some (Fin a) ->
     distance_to_existing_transmission_lines gdf = Some (Fin b) ->
     exists out v,
       run_lcoe_model gdf dem = Ok out /\
       dist_grid out = Fin v /\
       v == Qmin a (b + SUBSTATION_COST / MV_COST_KM)) /\
  (forall gdf dem out d_sub d_lines,
     run_lcoe_model gdf dem = Ok out ->
     dist_to_substations gdf = Some d_sub ->
     distance_to_existing_transmission_lines gdf = Some d_lines ->
     dist_grid out =
       Num.minimum (if Num.isnan d_sub then Fin 999 else d_sub)
                   ((if Num.isnan d_lines then Fin 999 else d_lines)
                    + Fin (SUBSTATION_COST / MV_COST_KM))) /\
  (forall gdf dem,
     dist_to_substations gdf = Some (Fin 50) ->
     distance_to_existing_transmission_lines gdf = Some (Fin 10) ->
     exists out v,
       run_lcoe_model gdf dem = Ok out /\
       dist_grid out = Fin v /\
       v == 10 + 500000 / 14000 /\ 45.7 <= v /\ v < 45.8).
Proof.
  assert (General : forall gdf dem (a b : Q),
     dist_to_substations gdf = Some (Fin a) ->
     distance_to_existing_transmission_lines gdf = Some (Fin b) ->
     exists out v,
       run_lcoe_model gdf dem = Ok out /\
       dist_grid out = Fin v /\
       v == Qmin a (b + SUBSTATION_COST / MV_COST_KM)).
  { intros gdf dem a b Ha Hb.
    destruct (run_lcoe_model_total gdf dem _ _ Ha Hb) as (out & Hout).
    pose proof (run_lcoe_model_dist_grid gdf dem out _ _ Hout Ha Hb) as D.
    cbn [Num.isnan Num.add] in D.
    destruct (minimum_Fin a (b + SUBSTATION_COST / MV_COST_KM))
      as (v & Hv & Hq).
    exists out, v. rewrite D, Hv. auto. }
  split; [exact General |].
  split; [exact run_lcoe_model_dist_grid |].
  intros gdf dem Ha Hb.
  destruct (General gdf dem 50 10 Ha Hb) as (out & v & Hout & Hd & Hv).
  exists out, v. split; [exact Hout |]. split; [exact Hd |].
  assert (E : Qmin 50 (10 + SUBSTATION_COST / MV_COST_KM)
              == 10 + 500000 / 14000).
  { apply Q.min_r. vm_compute. discriminate. }
  rewrite E in Hv. rewrite Hv.
  split; [reflexivity |].
  split; [vm_compute; discriminate | vm_compute; reflexivity].
Qed.

Lemma effective_grid_distance_witness :
  (exists out v,
     run_lcoe_model hamlet hamlet_demand = Ok out /\
     dist_grid out = Fin v /\
     v == Qmin 50 (10 + SUBSTATION_COST / MV_COST_KM)) /\
  (exists out v,
     run_lcoe_model hamlet hamlet_demand = Ok out /\
     dist_grid out = Fin v /\
     v == 10 + 500000 / 14000 /\ 45.7 <= v /\ v < 45.8).
Proof.
  destruct effective_grid_distance as (D1 & _ & D3).
  split.
  - apply (D1 hamlet hamlet_demand); reflexivity.
  - apply (D3 hamlet hamlet_demand); reflexivity.
Defined.

(* ------------------------------------------------------------------ *)
(** ** Missing optional columns *)

Lemma fillna_scalar_default (z : Z) (value : Q) :
  fillna (get None (PyInt z)) value = Err AttributeError.
Proof. reflexivity. Qed.

Lemma fillna_series_default (col : option num) (x : num) (value : Q) :
  exists v, fillna (get col (Series x)) value = Ok v.
Proof. destruct col; simpl; eauto. Qed.

(** Without either facility-count column the demand model never returns. *)
Lemma run_demand_model_needs_facility_counts (s : Settlement) :
  num_health_facilities s = None \/ num_education_facilities s = None ->
  forall d, run_demand_model s <> Ok d.
Proof.
  intros Hmiss d H. unfold run_demand_model in H. bind_ok H.
  destruct Hmiss as [M | M]; rewrite M in *; discriminate.
Qed.

(** Without either grid-distance column the first statements of the cost
    model raise. *)
Lemma run_lcoe_model_needs_grid_distances (gdf : Settlement) (dem : DemandCols) :
  dist_to_substations gdf = None
  \/ distance_to_existing_transmission_lines gdf = None ->
  run_lcoe_model gdf dem = Err AttributeError.
Proof.
  intros [M | M]; unfold run_lcoe_model; rewrite M.
  - reflexivity.
  - destruct (dist_to_substations gdf); reflexivity.
Qed.

(** C1, evaluated on the code.  The specification has a table without an
    optional column run with the documented default (facility counts 0,
    substation and line distance 999 km).  The code raises instead: on a
    table without the facility-count columns [run_demand_model] ends in
    [AttributeError], and on a table without the grid-distance columns
    [run_lcoe_model] does, whatever the demand columns; the same row with
    those columns present goes through both functions, with the hub
    distance, whose default is a Series, defaulted as documented. *)
Theorem missing_optional_column_raises :
  run_demand_model hamlet_without_facility_counts = Err AttributeError
  /\ (forall dem,
        run_lcoe_model hamlet_without_grid_distances dem = Err AttributeError)
  /\ (exists dem out,
        run_demand_model hamlet = Ok dem /\ run_lcoe_model hamlet dem = Ok out).
Proof.
  split; [| split].
  - vm_compute. reflexivity.
  - intros dem. apply run_lcoe_model_needs_grid_distances. left. reflexivity.
  - destruct (run_demand_model hamlet) as [dem |] eqn:E;
      [| vm_compute in E; discriminate E].
    exists dem.
    destruct (run_lcoe_model hamlet dem) as [out |] eqn:E';
      [exists out; split; reflexivity |].
    exfalso. unfold run_lcoe_model in E'.
    cbn [hamlet dist_to_substations distance_to_existing_transmission_lines
         get fillna bind] in E'.
    destruct (crf DISCOUNT_RATE 40) eqn:C1; [| vm_compute in C1; discriminate].
    destruct (crf DISCOUNT_RATE 20) eqn:C2; [| vm_compute in C2; discriminate].
    destruct (crf DISCOUNT_RATE 5) eqn:C3; [| vm_compute in C3; discriminate].
    cbn [bind] in E'. discriminate E'.
Qed.

(* ------------------------------------------------------------------ *)
(** ** Mini-grid capital cost *)

Ltac nonzero_const := let H := fresh in intro H; vm_compute in H; discriminate H.

Lemma run_lcoe_model_capex_mg (gdf : Settlement) (dem : DemandCols)
    (out : LcoeCols) (demand peak : Q) :
  run_lcoe_model gdf dem = Ok out ->
  projected_demand dem = Fin demand ->
  projected_peak dem = Fin peak ->
  exists v, capex_mg out = Fin v /\
            v == capex_mg_formula (peak * 0.6) demand (households dem).
Proof.
  intros H HD HP. lcoe_inv H. cbn [capex_mg]. rewrite HD, HP.
  unfold Num.of_Z. cbn [Num.mul].
  rewrite !div_Fin by nonzero_const.
  cbn [Num.mul Num.add]. rewrite !div_Fin by nonzero_const.
  cbn [Num.mul Num.add].
  eexists. split; [reflexivity |].
  unfold capex_mg_formula. cbv zeta. field.
  split; nonzero_const.
Qed.

(** C2, as the code computes it.  For every row with a finite projected
    demand and design peak, the mini-grid capital cost is PV cost + battery
    cost + discounted battery replacements + inverter cost + households x
    connection fee + households x 0.1 km x LV cost per km, where the
    inverter is sized on 0.6 x [projected_peak] (x 1.25 oversize x unit
    cost), the diversified peak of the grid section. *)
Theorem capex_mg_components :
  forall gdf dem out (demand peak : Q),
    run_lcoe_model gdf dem = Ok out ->
    projected_demand dem = Fin demand ->
    projected_peak dem = Fin peak ->
    exists v, capex_mg out = Fin v /\
              v == capex_mg_formula (peak * 0.6) demand (households dem).
Proof. exact run_lcoe_model_capex_mg. Qed.

Lemma hamlet_demand_ok : run_demand_model hamlet = Ok hamlet_demand.
Proof. vm_compute. reflexivity. Qed.

Lemma hamlet_lcoe_ok : run_lcoe_model hamlet hamlet_demand = Ok hamlet_lcoe.
Proof. vm_compute. reflexivity. Qed.

Lemma capex_mg_components_witness :
  exists demand peak v,
    projected_demand hamlet_demand = Fin demand /\
    projected_peak hamlet_demand = Fin peak /\
    capex_mg hamlet_lcoe = Fin v /\
    v == capex_mg_formula (peak * 0.6) demand (households hamlet_demand).
Proof.
  eexists. eexists.
  assert (HD : projected_demand hamlet_demand = Fin _) by (vm_compute; reflexivity).
  assert (HP : projected_peak hamlet_demand = Fin _) by (vm_compute; reflexivity).
  destruct (capex_mg_components hamlet hamlet_demand hamlet_lcoe _ _
              hamlet_lcoe_ok HD HP) as (v & Hv & Hq).
  exists v. repeat split; assumption.
Defined.

(** Counterexample to C2 as the specification words it: for [hamlet] the
    capital cost is not the sum with the inverter sized on
    [projected_peak]; the two differ by the inverter cost of 40% of the
    design peak. *)
Lemma capex_mg_not_on_projected_peak :
  exists demand peak v,
    projected_demand hamlet_demand = Fin demand /\
    projected_peak hamlet_demand = Fin peak /\
    capex_mg hamlet_lcoe = Fin v /\
    ~ v == capex_mg_formula peak demand (households hamlet_demand) /\
    capex_mg_formula peak demand (households hamlet_demand) - v
      == peak * 0.4 * 1.25 * INV_COST.
Proof.
  eexists. eexists. eexists.
  split; [vm_compute; reflexivity |].
  split; [vm_compute; reflexivity |].
  split; [vm_compute; reflexivity |].
  split; [nonzero_const | vm_compute; reflexivity].
Qed.

(* ------------------------------------------------------------------ *)
(** ** Order on the numbers *)




Lemma le_not_lt (a b : num) : Num.le a b -> (b <? a)%num = false.
Proof.
  destruct a as [a | | |], b as [b | | |]; simpl; try contradiction; trivial.
  intros H. apply Qltb_false. exact H.
Qed.



(* ------------------------------------------------------------------ *)
(** ** Least-cost selection *)


(** When [idxmin] picks the third of three cells, every other cell is NaN
    or strictly larger. *)
Lemma select_third (g m s : num) :
  idxmin [("lcoe_grid", g); ("lcoe_mg", m); ("lcoe_shs", s)]%string
    = Some "lcoe_shs"%string ->
  (Num.isnan g = true \/ (s <? g)%num = true)
  /\ (Num.isnan m = true \/ (s <? m)%num = true).
Proof.
  unfold idxmin. cbn [forallb snd argmin_from]. unfold fill_inf.
  destruct g as [g | | |], m as [m | | |], s as [s | | |];
    cbn [Num.isnan andb snd fst Num.lt];
    repeat (match goal with
            | |- context [Num.Qltb ?a ?b] => destruct (Num.Qltb a b) eqn:?
            end; cbn [snd fst Num.lt]);
    intros H; try discriminate H;
    repeat match goal with
           | E : Num.Qltb _ _ = true |- _ => apply Qltb_true in E
           | E : Num.Qltb _ _ = false |- _ => apply Qltb_false in E
           end;
    split; first [ left; reflexivity
                 | right; reflexivity
                 | right; apply Qltb_true; lra
                 | exfalso; lra ].
Qed.

(** The last section of [run_lcoe_model], read off its result. *)
Lemma run_lcoe_model_selection (gdf : Settlement) (dem : DemandCols)
    (out : LcoeCols) :
  run_lcoe_model gdf dem = Ok out ->
  let cols := [("lcoe_grid", lcoe_grid out); ("lcoe_mg", lcoe_mg out);
               ("lcoe_shs", lcoe_shs out)]%string in
  optimal_tech out =
    match idxmin cols with
    | Some c => lookup String.eqb tech_labels c
    | None => None
    end
  /\ min_lcoe out = row_min (map snd cols)
  /\ investment out =
       if label_is (optimal_tech out) "Grid" then capex_grid out
       else if label_is (optimal_tech out) "MiniGrid" then capex_mg out
       else capex_shs out.
Proof.
  intros H. lcoe_inv H.
  cbn [optimal_tech min_lcoe investment lcoe_grid lcoe_mg lcoe_shs
       capex_grid capex_mg capex_shs].
  repeat split; reflexivity.
Qed.


(* ------------------------------------------------------------------ *)
(** ** Solar home systems: the ineligibility sentinel *)

Lemma run_lcoe_model_sentinel (gdf : Settlement) (dem : DemandCols)
    (out : LcoeCols) :
  run_lcoe_model gdf dem = Ok out ->
  (tier dem >? MAX_TIER_SHS)%Z
  || ((dem_comm dem >? Fin 0)%num || (dem_agri dem >? Fin 0)%num
      || (dem_pub dem >? Fin 0)%num) = true ->
  lcoe_shs out = Fin 999.9.
Proof.
  intros H M. lcoe_inv H. cbn [lcoe_shs]. rewrite M. reflexivity.
Qed.

Lemma tech_label_shs (c : string) :
  lookup String.eqb tech_labels c = Some "SHS"%string -> c = "lcoe_shs"%string.
Proof.
  unfold tech_labels. cbn [lookup].
  destruct (String.eqb_spec c "lcoe_grid"); [discriminate |].
  destruct (String.eqb_spec c "lcoe_mg"); [discriminate |].
  destruct (String.eqb_spec c "lcoe_shs"); [auto | discriminate].
Qed.


(* ------------------------------------------------------------------ *)
(** ** The demand model: households *)

Ltac demand_inv H :=
  unfold run_demand_model in H; bind_ok H; apply Ok_inj in H; subst.

Lemma Qle_bool_inject_Z (z : Z) :
  (if Qle_bool 0 (inject_Z z) then Qfloor (inject_Z z)
   else Qceiling (inject_Z z)) = z.
Proof.
  destruct (Qle_bool 0 (inject_Z z)); [apply Qfloor_Z | apply Qceiling_Z].
Qed.

(** [np.ceil(x).clip(lower=1).astype(int)] on a finite cell. *)
Lemma ceil_clip_astype (q : Q) :
  astype_int (Num.clip_lower (Num.ceil (Fin q)) (Fin 1))
  = Ok (Z.max 1 (Qceiling q)).
Proof.
  unfold Num.clip_lower, Num.ceil, Num.of_Z, Num.maximum, Num.lt.
  destruct (Num.Qltb (inject_Z (Qceiling q)) 1) eqn:E.
  - apply Qltb_true in E. change 1 with (inject_Z 1) in E.
    rewrite <- Zlt_Qlt in E. cbn [astype_int].
    change 1 with (inject_Z 1). rewrite Qle_bool_inject_Z. f_equal. lia.
  - apply Qltb_false in E. change 1 with (inject_Z 1) in E.
    rewrite <- Zle_Qle in E. cbn [astype_int].
    rewrite Qle_bool_inject_Z. f_equal. lia.
Qed.

(** Whatever the cell, a household count that is returned is at least 1. *)
Lemma clip_astype_ge_1 (x : num) (hh : Z) :
  astype_int (Num.clip_lower (Num.ceil x) (Fin 1)) = Ok hh -> (1 <= hh)%Z.
Proof.
  destruct x as [q | | |].
  - rewrite ceil_clip_astype. intros H. apply Ok_inj in H. lia.
  - discriminate.
  - cbn. intros H. apply Ok_inj in H. subst hh. reflexivity.
  - discriminate.
Qed.

Lemma hh_size_nonzero (u : bool) : ~ (if u then 4.3 else 5.2) == 0.
Proof. destruct u; intro H; vm_compute in H; discriminate H. Qed.

Lemma run_demand_model_households (s : Settlement) (d : DemandCols) :
  run_demand_model s = Ok d ->
  (1 <= households d)%Z
  /\ hh_size d = (if is_urban d then 4.3 else 5.2)
  /\ forall p, population s = Fin p ->
       households d = Z.max 1 (Qceiling (p / hh_size d)).
Proof.
  intros H. demand_inv H. cbn [households hh_size is_urban].
  split; [eapply clip_astype_ge_1; eassumption |].
  split; [reflexivity |].
  intros p Hp. rewrite Hp in E.
  rewrite div_Fin in E by apply hh_size_nonzero.
  rewrite ceil_clip_astype in E. apply Ok_inj in E. rewrite <- E.
  rewrite Hp. reflexivity.
Qed.

(* ------------------------------------------------------------------ *)
(** ** The demand model: commercial demand *)

(** The gravity multiplier is a number between 1 and 2.5 for every hub
    distance that is not NaN. *)
Lemma gravity_bounds (dist_hub : num) :
  Num.isnan dist_hub = false ->
  exists g,
    Num.clip (Fin 1 + Fin 20.0 / (dist_hub + Fin 1)) (Fin 1) (Fin 2.5) = Fin g
    /\ 1 <= g /\ g <= 2.5.
Proof.
  intros Hn. destruct dist_hub as [h | | |]; try discriminate.
  - cbn [Num.add]. unfold Num.div.
    destruct (Qcompare_spec (h + 1) 0) as [E | L | L].
    + exists 2.5. split; [reflexivity | split; lra].
    + cbn [Num.add]. unfold Num.clip, Num.maximum, Num.minimum, Num.lt.
      destruct (Num.Qltb (1 + 20.0 / (h + 1)) 1) eqn:E1.
      * exists 1. split; [reflexivity | split; lra].
      * apply Qltb_false in E1.
        destruct (Num.Qltb 2.5 (1 + 20.0 / (h + 1))) eqn:E2.
        -- exists 2.5. split; [reflexivity | split; lra].
        -- apply Qltb_false in E2. eexists. split; [reflexivity | split; lra].
    + cbn [Num.add]. unfold Num.clip, Num.maximum, Num.minimum, Num.lt.
      destruct (Num.Qltb (1 + 20.0 / (h + 1)) 1) eqn:E1.
      * exists 1. split; [reflexivity | split; lra].
      * apply Qltb_false in E1.
        destruct (Num.Qltb 2.5 (1 + 20.0 / (h + 1))) eqn:E2.
        -- exists 2.5. split; [reflexivity | split; lra].
        -- apply Qltb_false in E2. eexists. split; [reflexivity | split; lra].
  - exists 1. split; [reflexivity | split; lra].
  - exists 1. split; [reflexivity | split; lra].
Qed.

Lemma one_le_ceiling (q : Q) : 0 < q -> (1 <= Qceiling q)%Z.
Proof.
  intros H. pose proof (Qle_ceiling q) as C.
  assert (L : 0 < inject_Z (Qceiling q)) by lra.
  change 0 with (inject_Z 0) in L. rewrite <- Zlt_Qlt in L. lia.
Qed.

Lemma zero_le_ceiling (q : Q) : 0 <= q -> (0 <= Qceiling q)%Z.
Proof.
  intros H. pose proof (Qle_ceiling q) as C.
  assert (L : 0 <= inject_Z (Qceiling q)) by lra.
  change 0 with (inject_Z 0) in L. rewrite <- Zle_Qle in L. exact L.
Qed.

(** At least one building (or household) gives at least one SME unit. *)
Lemma sme_units_floor (nb : num) (base g load : Q) :
  Num.le (Fin 1) nb -> 0 < base -> 1 <= g -> 0 < load ->
  Num.le (Fin load) (Num.ceil (nb / Fin base * Fin g) * Fin load).
Proof.
  intros Hnb Hb Hg Hl. destruct nb as [q | | |]; simpl in Hnb; try contradiction.
  - rewrite div_Fin by lra. cbn [Num.mul Num.ceil Num.of_Z Num.le].
    assert (P : 0 < q / base * g).
    { apply Qmult_lt_0_compat; [| lra].
      apply Qlt_shift_div_l; lra. }
    apply one_le_ceiling in P. rewrite Zle_Qle in P.
    change (inject_Z 1) with 1 in P.
    setoid_replace load with (1 * load) at 1 by ring.
    apply Qmult_le_compat_r; lra.
  - unfold Num.div. destruct (Qle_bool 0 base) eqn:E.
    + unfold Num.mul, Num.signed_inf.
      destruct (Qcompare_spec g 0); try lra.
      cbn [Num.ceil]. destruct (Qcompare_spec load 0); try lra. exact I.
    + exfalso. assert (Qle_bool 0 base = true) by (apply Qle_bool_iff; lra).
      congruence.
Qed.

Lemma le_add_nonneg (a t : Q) (x : num) :
  Num.le (Fin a) x -> 0 <= t -> Num.le (Fin a) (x + Fin t).
Proof.
  destruct x as [q | | |]; simpl; try contradiction; trivial.
  intros; lra.
Qed.

Lemma freezer_units_nonneg (hh : Z) (load : Q) :
  (1 <= hh)%Z -> 0 <= load ->
  exists t, (Num.ceil (Num.of_Z hh / Fin 100) * Fin load)%num = Fin t /\ 0 <= t.
Proof.
  intros Hh Hl. unfold Num.of_Z. rewrite div_Fin by (intro H; vm_compute in H; discriminate H).
  cbn [Num.ceil Num.of_Z Num.mul]. eexists. split; [reflexivity |].
  apply Qmult_le_0_compat; [| exact Hl].
  change 0 with (inject_Z 0). rewrite <- Zle_Qle. apply zero_le_ceiling.
  apply Qle_shift_div_l; [lra |].
  rewrite Qmult_0_l. change 0 with (inject_Z 0). rewrite <- Zle_Qle. lia.
Qed.

Lemma le_gt_zero (a : Q) (x : num) :
  0 < a -> Num.le (Fin a) x -> (x >? Fin 0)%num = true.
Proof.
  intros Ha. destruct x as [q | | |]; simpl; try contradiction; trivial.
  intros H. apply Qltb_true. lra.
Qed.

Lemma run_demand_model_dem_comm (s : Settlement) (d : DemandCols) :
  run_demand_model s = Ok d ->
  num_buildings s = None
  \/ (exists v, num_buildings s = Some v /\ Num.le (Fin 1) v) ->
  Num.le (Fin 600) (dem_comm d).
Proof.
  intros H Hnb.
  pose proof (run_demand_model_households s d H) as (Hh & _ & _).
  demand_inv H. cbn [dem_comm households] in *.
  destruct (gravity_bounds a0 (fillna_not_nan _ _ _ E0)) as (g & -> & G1 & G2).
  change (LOADS "sme") with 600. change (LOADS "freezer") with 2500.
  set (is_urban := (population s >? Fin 5000)%num
         || (as_num (get (num_buildings s) (PyInt 0)) >? Fin 500)%num) in *.
  assert (Base : 0 < (if is_urban then 50 else 100)) by (destruct is_urban; lra).
  assert (Floor : Num.le (Fin 600)
            (Num.ceil (as_num (get (num_buildings s) (Series (Num.of_Z a)))
                       / Fin (if is_urban then 50 else 100) * Fin g)
             * Fin 600)).
  { apply sme_units_floor; try lra.
    destruct Hnb as [-> | (v & -> & Hv)]; cbn [get as_num]; [| exact Hv].
    unfold Num.of_Z. cbn [Num.le]. change 1 with (inject_Z 1).
    rewrite <- Zle_Qle. exact Hh. }
  destruct (dist_lake_river_km s) as [lake |]; [| exact Floor].
  destruct ((lake <? Fin 3.0)%num && (population s >? Fin 200)%num);
    [| exact Floor].
  destruct (freezer_units_nonneg a 2500 Hh) as (t & -> & Ht); [lra |].
  apply le_add_nonneg; assumption.
Qed.


(* ------------------------------------------------------------------ *)
(** ** The demand model: agricultural demand *)

Lemma py_int_div_Fin (p c : Q) :
  ~ c == 0 ->
  exists n, py_int (Fin p / Fin c) = Ok n /\ (0 <= p / c -> (0 <= n)%Z).
Proof.
  intros Hc. rewrite div_Fin by exact Hc. cbn [py_int].
  eexists. split; [reflexivity |]. intros Hp.
  destruct (Qle_bool 0 (p / c)) eqn:E.
  - change 0%Z with (Qfloor (inject_Z 0)). apply Qfloor_resp_le. exact Hp.
  - apply zero_le_ceiling. exact Hp.
Qed.

(** For a finite population the function returns, and what it returns is
    a sum of non-negative loads. *)
Lemma estimate_agri_loads_total (row : Settlement) (urban : bool) (p : Q) :
  population row = Fin p ->
  exists a, estimate_agri_loads row urban = Ok a /\ 0 <= a.
Proof.
  intros Hp. unfold estimate_agri_loads. rewrite Hp.
  change (LOADS "mill") with 4500. change (LOADS "irrigation") with 3500.
  change (LOADS "dryer") with 6000.
  destruct (py_int_div_Fin p 1500) as (n1 & -> & _);
    [intro H; vm_compute in H; discriminate H |].
  destruct (py_int_div_Fin p 800) as (n2 & -> & _);
    [intro H; vm_compute in H; discriminate H |].
  destruct (py_int_div_Fin p 2000) as (n3 & -> & _);
    [intro H; vm_compute in H; discriminate H |].
  assert (M : forall n, 0 <= inject_Z (Z.max 1 n)).
  { intros n. change 0 with (inject_Z 0). rewrite <- Zle_Qle. lia. }
  pose proof (M n1) as M1. pose proof (M n2) as M2. pose proof (M n3) as M3.
  clear M. cbn [bind].
  generalize dependent (inject_Z (Z.max 1 n1)). intros m1 M1.
  generalize dependent (inject_Z (Z.max 1 n2)). intros m2 M2.
  generalize dependent (inject_Z (Z.max 1 n3)). intros m3 M3.
  destruct (negb urban && (Fin p >? Fin 500)%num);
    destruct ((as_num (get (dist_lake_river_km row) (PyInt 99)) <? Fin 3.0)%num
              && (Fin p >? Fin 300)%num);
    destruct ((match geometry row with Some y => y | None => Fin 0 end
               >? Fin 8.0)%num && negb urban && (Fin p >? Fin 400)%num);
    cbn [bind]; eexists; (split; [reflexivity |]); lra.
Qed.

(** C9.  For a rural row with population 1000, centroid latitude at most
    8 (or no geometry) and no lake or river within 3 km, the agricultural
    demand is one grain-mill unit, [max(1, int(1000/1500)) = 1], times
    4500, with nothing from the irrigation and cashew rules; and if the
    wealth proxy is -0.5, there is no nightlight and the main road is 25 km
    away, the tier is 1. *)
Theorem rural_mill_scenario :
  forall s d,
    run_demand_model s = Ok d ->
    population s = Fin 1000 ->
    is_urban d = false ->
    geometry s = None
    \/ (exists lat, geometry s = Some lat /\ Num.le lat (Fin 8)) ->
    dist_lake_river_km s = None
    \/ (exists km, dist_lake_river_km s = Some km /\ Num.le (Fin 3) km) ->
    estimate_agri_loads s false
      = Ok (0 + inject_Z (Z.max 1 (Qfloor (1000 / 1500))) * LOADS "mill")
    /\ Z.max 1 (Qfloor (1000 / 1500)) = 1%Z
    /\ dem_agri d = Fin 4500
    /\ (mean_rwi s = Some (Fin (-0.5)) ->
        has_nightlight s = None \/ has_nightlight s = Some (Fin 0) ->
        dist_main_road_km s = Some (Fin 25) ->
        tier d = 1%Z).
Proof.
  intros s d H Hp Hu Hlat Hlake.
  assert (A : estimate_agri_loads s false
              = Ok (0 + inject_Z (Z.max 1 (Qfloor (1000 / 1500)))
                        * LOADS "mill")).
  { unfold estimate_agri_loads. rewrite Hp.
    assert (L : (as_num (get (dist_lake_river_km s) (PyInt 99)) <? Fin 3.0)%num
                = false).
    { destruct Hlake as [-> | (km & -> & Hkm)]; [reflexivity |].
      cbn [get as_num]. destruct km as [q | | |]; simpl in *;
        try contradiction; try reflexivity. apply Qltb_false. lra. }
    assert (G : (match geometry s with Some y => y | None => Fin 0 end
                 >? Fin 8.0)%num = false).
    { destruct Hlat as [-> | (lat & -> & Hl)]; [reflexivity |].
      destruct lat as [q | | |]; simpl in *;
        try contradiction; try reflexivity. apply Qltb_false. lra. }
    rewrite L, G. reflexivity. }
  split; [exact A |]. split; [reflexivity |]. split.
  - pose proof H as H'. demand_inv H'. cbn [dem_agri is_urban] in *.
    rewrite Hu, A in E1. apply Ok_inj in E1. rewrite <- E1. reflexivity.
  - intros Hw Hn Hr. rewrite (run_demand_model_tier s d H).
    unfold assign_tier. rewrite Hw, Hr.
    destruct Hn as [-> | ->]; reflexivity.
Qed.

Lemma rural_mill_scenario_witness :
  estimate_agri_loads hamlet false
    = Ok (0 + inject_Z (Z.max 1 (Qfloor (1000 / 1500))) * LOADS "mill")
  /\ Z.max 1 (Qfloor (1000 / 1500)) = 1%Z
  /\ dem_agri hamlet_demand = Fin 4500
  /\ (mean_rwi hamlet = Some (Fin (-0.5)) ->
      has_nightlight hamlet = None \/ has_nightlight hamlet = Some (Fin 0) ->
      dist_main_road_km hamlet = Some (Fin 25) ->
      tier hamlet_demand = 1%Z).
Proof.
  apply (rural_mill_scenario hamlet hamlet_demand).
  - vm_compute. reflexivity.
  - reflexivity.
  - vm_compute. reflexivity.
  - right. exists (Fin 7). split; [reflexivity | vm_compute; discriminate].
  - right. exists (Fin 10). split; [reflexivity | vm_compute; discriminate].
Defined.

(* ------------------------------------------------------------------ *)
(** ** The demand model: components and projected demand *)

Lemma growth_ge_1 : 1 <= growth.
Proof.
  unfold growth. apply Qpower_1_le; [| unfold PLANNING_HORIZON; lia].
  unfold POP_GROWTH, WEALTH_GROWTH. lra.
Qed.

Lemma growth_pos : 0 < growth.
Proof. pose proof growth_ge_1. lra. Qed.

(** The tier tables on the tiers the demand model assigns. *)
Lemma tier_tables (s : Settlement) :
  exists k f,
    map_dict TIER_KWH (assign_tier s) = Fin k
    /\ map_dict TIER_LF (assign_tier s) = Fin f
    /\ ((k = 35 /\ f = 0.18) \/ (k = 220 /\ f = 0.20)
        \/ (k = 850 /\ f = 0.25)).
Proof.
  destruct (assign_tier_range s) as [-> | [-> | ->]];
    cbn; do 2 eexists; repeat split; auto.
Qed.

Lemma sme_units_nonneg (q base g load : Q) :
  0 <= q -> 0 < base -> 1 <= g -> 0 <= load ->
  exists c, (Num.ceil (Fin q / Fin base * Fin g) * Fin load)%num = Fin c
            /\ 0 <= c.
Proof.
  intros Hq Hb Hg Hl. rewrite div_Fin by lra.
  cbn [Num.mul Num.ceil Num.of_Z]. eexists. split; [reflexivity |].
  apply Qmult_le_0_compat; [| exact Hl].
  change 0 with (inject_Z 0). rewrite <- Zle_Qle. apply zero_le_ceiling.
  apply Qmult_le_0_compat; [| lra].
  apply Qle_shift_div_l; [exact Hb |]. lra.
Qed.

Lemma count_cell_filled_with (x : num) (value : Q) :
  count_cell x -> 0 <= value ->
  exists q, (if Num.isnan x then Fin value else x) = Fin q /\ 0 <= q.
Proof.
  destruct x as [q | | |]; simpl; try contradiction.
  - intros H _. exists q. auto.
  - intros _ H. exists value. auto.
Qed.

Lemma count_cell_filled (x : num) :
  count_cell x ->
  exists q, (if Num.isnan x then Fin 0 else x) = Fin q /\ 0 <= q.
Proof. intros H. apply count_cell_filled_with; [exact H | lra]. Qed.

(** What the demand model writes for a well-formed row, in terms of the
    household count [hh], the tier's consumption [k] and load factor [f],
    the uptake [u] and the three non-residential components. *)
Lemma run_demand_model_shape (s : Settlement) (d : DemandCols) :
  well_formed s ->
  run_demand_model s = Ok d ->
  exists k f u c a p,
    ((k = 35 /\ f = 0.18) \/ (k = 220 /\ f = 0.20) \/ (k = 850 /\ f = 0.25))
    /\ (u = 0.95 \/ u = TARGET_UPTAKE_2040)
    /\ 0 <= c /\ 0 <= a /\ 0 <= p
    /\ dem_res d = Fin (inject_Z (households d) * k * u)
    /\ dem_comm d = Fin c /\ dem_agri d = Fin a /\ dem_pub d = Fin p
    /\ projected_demand d
       = Fin ((inject_Z (households d) * k * u + c + a + p) * growth)
    /\ projected_peak d
       = Fin ((inject_Z (households d) * k + c + a + p) * growth / 8760 / f).
Proof.
  intros (Hpop & Hnb & (h & Hh & Ch) & (e & He & Ce)) H.
  destruct Hpop as (pop & Hpop & Hpop0).
  pose proof (run_demand_model_households s d H) as (Hhh & _ & _).
  pose proof H as H'. demand_inv H'.
  cbn [dem_res dem_comm dem_agri dem_pub projected_demand projected_peak
       households] in *.
  destruct (tier_tables s) as (k & f & -> & -> & Hkf).
  destruct (gravity_bounds a0 (fillna_not_nan _ _ _ E0)) as (g & -> & G1 & G2).
  destruct (estimate_agri_loads_total s
              ((population s >? Fin 5000)%num
               || (as_num (get (num_buildings s) (PyInt 0)) >? Fin 500)%num)
              pop Hpop) as (agri & Ea & Ha).
  rewrite Ea in E1. apply Ok_inj in E1. subst a1.
  rewrite Hh, fillna_present in E2. apply Ok_inj in E2. subst a2.
  rewrite He, fillna_present in E3. apply Ok_inj in E3. subst a3.
  destruct (count_cell_filled h Ch) as (hq & -> & Hhq).
  destruct (count_cell_filled e Ce) as (eq & -> & Heq).
  change (LOADS "sme") with 600. change (LOADS "freezer") with 2500.
  change (LOADS "health") with 4000. change (LOADS "education") with 1500.
  set (urban := (population s >? Fin 5000)%num
         || (as_num (get (num_buildings s) (PyInt 0)) >? Fin 500)%num) in *.
  assert (Base : 0 < (if urban then 50 else 100)) by (destruct urban; lra).
  assert (Hq : 1 <= inject_Z a).
  { change 1 with (inject_Z 1). rewrite <- Zle_Qle. exact Hhh. }
  assert (Sme : exists c,
            (Num.ceil (as_num (get (num_buildings s) (Series (Num.of_Z a)))
                       / Fin (if urban then 50 else 100) * Fin g)
             * Fin 600)%num = Fin c /\ 0 <= c).
  { destruct (num_buildings s) as [[q | | |] |]; try contradiction;
      cbn [get as_num]; unfold Num.of_Z; apply sme_units_nonneg; lra. }
  destruct Sme as (c0 & -> & Hc0).
  assert (Comm : exists c,
            match dist_lake_river_km s with
            | Some d0 =>
                if (d0 <? Fin 3.0)%num && (population s >? Fin 200)%num
                then (Fin c0 + Num.ceil (Num.of_Z a / Fin 100) * Fin 2500)%num
                else Fin c0
            | None => Fin c0
            end = Fin c /\ 0 <= c).
  { destruct (dist_lake_river_km s) as [lake |]; [| exists c0; auto].
    destruct ((lake <? Fin 3.0)%num && (population s >? Fin 200)%num);
      [| exists c0; auto].
    destruct (freezer_units_nonneg a 2500 Hhh) as (t & -> & Ht); [lra |].
    cbn [Num.add]. eexists. split; [reflexivity | lra]. }
  destruct Comm as (c & -> & Hc).
  unfold Num.of_Z. cbn [Num.mul Num.add].
  rewrite div_Fin by (intro C; vm_compute in C; discriminate C).
  rewrite div_Fin
    by (destruct Hkf as [[_ ->] | [[_ ->] | [_ ->]]];
        intro C; vm_compute in C; discriminate C).
  exists k, f, (if urban then 0.95 else TARGET_UPTAKE_2040), c, agri,
         (hq * 4000 + eq * 1500).
  split; [exact Hkf |].
  split; [destruct urban; auto |].
  repeat split; try reflexivity; try assumption.
  apply Qle_trans with (0 + 0); [lra |].
  apply Qplus_le_compat; apply Qmult_le_0_compat; lra.
Qed.

(** For a well-formed row the four demand components are numbers, the
    residential one positive and the others non-negative, and the
    projected demand is their sum times the growth factor. *)
Lemma run_demand_model_components (s : Settlement) (d : DemandCols) :
  well_formed s ->
  run_demand_model s = Ok d ->
  exists r c a p,
    dem_res d = Fin r /\ dem_comm d = Fin c
    /\ dem_agri d = Fin a /\ dem_pub d = Fin p
    /\ 0 < r /\ 0 <= c /\ 0 <= a /\ 0 <= p
    /\ projected_demand d = Fin ((r + c + a + p) * growth).
Proof.
  intros W H.
  destruct (run_demand_model_shape s d W H)
    as (k & f & u & c & a & p & Hkf & Hu & Hc & Ha & Hp
        & Er & Ec & Ea & Ep & ED & _).
  destruct (run_demand_model_households s d H) as (Hh & _ & _).
  rewrite Zle_Qle in Hh. change (inject_Z 1) with 1 in Hh.
  exists (inject_Z (households d) * k * u), c, a, p.
  repeat split; try assumption.
  assert (0 < k) by (destruct Hkf as [[-> _] | [[-> _] | [-> _]]]; lra).
  assert (0 < u) by (destruct Hu as [-> | ->]; unfold TARGET_UPTAKE_2040; lra).
  apply Qmult_lt_0_compat; [| assumption].
  apply Qmult_lt_0_compat; lra.
Qed.

(** With a finite population and both facility-count columns in the
    table the demand model returns. *)
Lemma run_demand_model_returns (s : Settlement) (p : Q) (h e : num) :
  population s = Fin p ->
  num_health_facilities s = Some h ->
  num_education_facilities s = Some e ->
  exists d, run_demand_model s = Ok d.
Proof.
  intros Hpop Hh He.
  unfold run_demand_model. rewrite Hpop.
  rewrite div_Fin by apply hh_size_nonzero.
  rewrite ceil_clip_astype. cbn [bind].
  destruct (fillna_series_default (dist_nearest_hub_km s) (Fin 30) 30)
    as (hub & ->). cbn [bind].
  rewrite <- Hpop.
  destruct (estimate_agri_loads_total s
              ((population s >? Fin 5000)%num
               || (as_num (get (num_buildings s) (PyInt 0)) >? Fin 500)%num)
              p Hpop) as (agri & Ea & _).
  rewrite Hpop in Ea |- *. rewrite Ea. cbn [bind].
  rewrite Hh, He, !fillna_present. cbn [bind].
  eexists. reflexivity.
Qed.

Lemma run_demand_model_total (s : Settlement) :
  well_formed s -> exists d, run_demand_model s = Ok d.
Proof.
  intros ((pop & Hpop & _) & _ & (h & Hh & _) & (e & He & _)).
  unfold run_demand_model. rewrite Hpop.
  rewrite div_Fin by apply hh_size_nonzero.
  rewrite ceil_clip_astype. cbn [bind].
  destruct (fillna_series_default (dist_nearest_hub_km s) (Fin 30) 30)
    as (hub & ->). cbn [bind].
  rewrite <- Hpop.
  destruct (estimate_agri_loads_total s
              ((population s >? Fin 5000)%num
               || (as_num (get (num_buildings s) (PyInt 0)) >? Fin 500)%num)
              pop Hpop) as (agri & Ea & _).
  rewrite Hpop in Ea |- *. rewrite Ea. cbn [bind].
  rewrite Hh, He, !fillna_present. cbn [bind].
  eexists. reflexivity.
Qed.

(* ------------------------------------------------------------------ *)
(** ** Solar home systems: delivered energy *)

Lemma inject_Z_pos (z : Z) : (1 <= z)%Z -> 1 <= inject_Z z.
Proof. intros H. change 1 with (inject_Z 1). rewrite <- Zle_Qle. exact H. Qed.

(** With at least one household, a tier that has a kit and a positive
    projected demand, the delivered energy is positive and the LCOE of the
    kit is a number. *)
Lemma run_lcoe_model_shs_finite (gdf : Settlement) (dem : DemandCols)
    (out : LcoeCols) (demand : Q) :
  run_lcoe_model gdf dem = Ok out ->
  (1 <= households dem)%Z ->
  (tier dem = 1 \/ tier dem = 2 \/ tier dem = 3)%Z ->
  projected_demand dem = Fin demand -> 0 < demand ->
  exists e v, energy_delivered out = Fin e /\ 0 < e /\ lcoe_shs out = Fin v.
Proof.
  intros H Hh Ht HD Hpos. apply inject_Z_pos in Hh.
  lcoe_inv H. cbn [energy_delivered lcoe_shs]. rewrite HD.
  assert (Kit : exists cost cap,
            map_dict SHS_COST (tier dem) = Fin cost
            /\ map_dict SHS_CAP (tier dem) = Fin cap /\ 0 < cap).
  { destruct Ht as [-> | [-> | ->]]; cbn; do 2 eexists;
      repeat split; reflexivity. }
  destruct Kit as (cost & cap & -> & -> & Hcap).
  unfold Num.of_Z. rewrite div_Fin by lra.
  assert (Per : 0 < demand / inject_Z (households dem))
    by (apply Qlt_shift_div_l; lra).
  assert (Min : exists m,
            Num.minimum (Fin (demand / inject_Z (households dem))) (Fin cap)
            = Fin m /\ 0 < m).
  { unfold Num.minimum, Num.lt.
    destruct (Num.Qltb cap (demand / inject_Z (households dem)));
      eexists; split; try reflexivity; assumption. }
  destruct Min as (m & -> & Hm). cbn [Num.mul Num.add].
  assert (Epos : 0 < m * inject_Z (households dem))
    by (apply Qmult_lt_0_compat; lra).
  rewrite div_Fin by lra.
  exists (m * inject_Z (households dem)).
  destruct ((tier dem >? MAX_TIER_SHS)%Z
            || ((dem_comm dem >? Fin 0)%num || (dem_agri dem >? Fin 0)%num
                || (dem_pub dem >? Fin 0)%num));
    eexists; repeat split; try reflexivity; exact Epos.
Qed.

(** C5, as the code computes it.  For every row with a finite population
    the household count is the population divided by the household size,
    rounded up and floored at 1, so at least 1.  For every well-formed row
    (non-negative population, building and facility counts) the demand
    model returns a positive projected demand, with a tier of 1, 2 or 3.
    And whenever there is at least one household, the tier is 1, 2 or 3 and
    the projected demand is positive, the delivered energy is positive and
    [lcoe_shs] is a finite number. *)
Theorem division_guards :
  (forall s d p,
     run_demand_model s = Ok d -> population s = Fin p ->
     households d = Z.max 1 (Qceiling (p / hh_size d))
     /\ (1 <= households d)%Z)
  /\ (forall s,
        well_formed s ->
        exists d demand,
          run_demand_model s = Ok d
          /\ (1 <= households d)%Z
          /\ (tier d = 1 \/ tier d = 2 \/ tier d = 3)%Z
          /\ projected_demand d = Fin demand /\ 0 < demand)
  /\ (forall gdf dem out demand,
        run_lcoe_model gdf dem = Ok out ->
        (1 <= households dem)%Z ->
        (tier dem = 1 \/ tier dem = 2 \/ tier dem = 3)%Z ->
        projected_demand dem = Fin demand -> 0 < demand ->
        exists e v,
          energy_delivered out = Fin e /\ 0 < e /\ lcoe_shs out = Fin v).
Proof.
  split; [| split].
  - intros s d p H Hp.
    destruct (run_demand_model_households s d H) as (H1 & _ & Hh).
    split; [apply Hh, Hp | exact H1].
  - intros s W. destruct (run_demand_model_total s W) as (d & Hd).
    destruct (run_demand_model_components s d W Hd)
      as (r & c & a & p & _ & _ & _ & _ & Hr & Hc & Ha & Hp & HD).
    destruct (run_demand_model_households s d Hd) as (H1 & _ & _).
    exists d, ((r + c + a + p) * growth).
    split; [exact Hd |]. split; [exact H1 |].
    split; [rewrite (run_demand_model_tier s d Hd); apply assign_tier_range |].
    split; [exact HD |].
    apply Qmult_lt_0_compat; [lra | apply growth_pos].
  - exact run_lcoe_model_shs_finite.
Qed.

Lemma hamlet_well_formed : well_formed hamlet.
Proof.
  unfold well_formed, hamlet; cbn.
  split; [exists 1000; split; [reflexivity | lra] |].
  split; [exact I |].
  split; exists (Fin 0); (split; [reflexivity | cbn; lra]).
Defined.

Lemma division_guards_witness :
  (households hamlet_demand = Z.max 1 (Qceiling (1000 / hh_size hamlet_demand))
   /\ (1 <= households hamlet_demand)%Z)
  /\ (exists d demand,
        run_demand_model hamlet = Ok d
        /\ (1 <= households d)%Z
        /\ (tier d = 1 \/ tier d = 2 \/ tier d = 3)%Z
        /\ projected_demand d = Fin demand /\ 0 < demand)
  /\ (exists e v,
        energy_delivered hamlet_lcoe = Fin e /\ 0 < e
        /\ lcoe_shs hamlet_lcoe = Fin v).
Proof.
  destruct division_guards as (G1 & G2 & G3).
  split; [| split].
  - apply (G1 hamlet hamlet_demand 1000); [vm_compute |]; reflexivity.
  - apply (G2 hamlet). exact hamlet_well_formed.
  - eapply (G3 hamlet hamlet_demand hamlet_lcoe).
    + vm_compute. reflexivity.
    + vm_compute. discriminate.
    + left. reflexivity.
    + vm_compute. reflexivity.
    + vm_compute. reflexivity.
Defined.

(** Counterexample to C5 as the specification words it: for one household
    with zero projected demand and no productive load the delivered energy
    is zero, and the LCOE of the kit is the infinity that the division by
    zero gives, not the sentinel. *)
Lemma zero_delivered_energy_not_guarded :
  Num.le (Fin 0) (population vacant_row)
  /\ exists out,
       run_lcoe_model vacant_row zero_demand = Ok out
       /\ Num.eq (energy_delivered out) (Fin 0)
       /\ lcoe_shs out = PInf.
Proof.
  split; [vm_compute; discriminate |].
  eexists. split; [vm_compute; reflexivity |].
  split; vm_compute; reflexivity.
Qed.

(* ------------------------------------------------------------------ *)
(** ** The pipeline: LCOE values of well-formed rows *)

(** The demand-proportional part of the mini-grid capital cost, per kWh
    of projected demand: PV, battery and the two replacements. *)
Lemma capex_mg_formula_linear (peak demand : Q) (hh : Z) :
  capex_mg_formula peak demand hh
  == demand * capex_mg_formula 0 1 0 + peak * 225 + inject_Z hh * 650.
Proof.
  unfold capex_mg_formula. cbv zeta.
  unfold INV_COST, CONN_MG, LV_COST_KM.
  change (inject_Z 0) with 0. field.
  split; intro C; vm_compute in C; discriminate C.
Qed.

Lemma capex_mg_per_kwh_bound : 0 <= capex_mg_formula 0 1 0 /\ capex_mg_formula 0 1 0 <= 2.
Proof. split; vm_compute; discriminate. Qed.

Lemma crf_mg_bound : exists c, crf DISCOUNT_RATE 20 = Ok c /\ 0 < c /\ c <= 0.11.
Proof.
  eexists. split; [vm_compute; reflexivity |].
  split; [vm_compute; reflexivity | vm_compute; discriminate].
Qed.

(** Design peak and household count of a well-formed row, against its
    projected demand. *)
Lemma run_demand_model_scale (s : Settlement) (d : DemandCols) :
  well_formed s ->
  run_demand_model s = Ok d ->
  exists demand peak,
    projected_demand d = Fin demand /\ projected_peak d = Fin peak
    /\ 0 < demand /\ 0 <= peak
    /\ peak * 1340 <= demand
    /\ inject_Z (households d) * 29 <= demand.
Proof.
  intros W H.
  destruct (run_demand_model_shape s d W H)
    as (k & f & u & c & a & p & Hkf & Hu & Hc & Ha & Hp
        & _ & _ & _ & _ & ED & EP).
  destruct (run_demand_model_households s d H) as (Hh & _ & _).
  rewrite Zle_Qle in Hh. change (inject_Z 1) with 1 in Hh.
  pose proof growth_ge_1 as G.
  set (hh := inject_Z (households d)) in *.
  set (g := growth) in *.
  assert (Hhg : hh * 1 <= hh * g) by (apply Qmult_le_l; lra).
  assert (Hcg : 0 <= c * g) by (apply Qmult_le_0_compat; lra).
  assert (Hag : 0 <= a * g) by (apply Qmult_le_0_compat; lra).
  assert (Hpg : 0 <= p * g) by (apply Qmult_le_0_compat; lra).
  exists ((hh * k * u + c + a + p) * g),
         ((hh * k + c + a + p) * g / 8760 / f).
  split; [exact ED |]. split; [exact EP |].
  unfold TARGET_UPTAKE_2040 in Hu.
  assert (Peak : (hh * k + c + a + p) * g / 8760 / f * (8760 * f)
                 == (hh * k + c + a + p) * g).
  { field. destruct Hkf as [[_ ->] | [[_ ->] | [_ ->]]]; lra. }
  set (pk := (hh * k + c + a + p) * g / 8760 / f) in *.
  destruct Hkf as [[-> ->] | [[-> ->] | [-> ->]]];
    destruct Hu as [-> | ->];
    repeat split; lra.
Qed.

Lemma run_lcoe_model_lcoe_mg (gdf : Settlement) (dem : DemandCols)
    (out : LcoeCols) (demand peak : Q) :
  run_lcoe_model gdf dem = Ok out ->
  projected_demand dem = Fin demand -> ~ demand == 0 ->
  projected_peak dem = Fin peak ->
  exists v c,
    crf DISCOUNT_RATE 20 = Ok c
    /\ capex_mg out = Fin v
    /\ lcoe_mg out = Fin ((v * c + v * 0.03) / demand).
Proof.
  intros H HD Hnz HP. lcoe_inv H. cbn [capex_mg lcoe_mg]. rewrite HD, HP.
  unfold Num.of_Z. cbn [Num.mul].
  rewrite !div_Fin by nonzero_const.
  cbn [Num.mul Num.add]. rewrite !div_Fin by nonzero_const.
  cbn [Num.mul Num.add]. rewrite div_Fin by exact Hnz.
  do 2 eexists. split; [reflexivity |]. split; reflexivity.
Qed.


(** On a well-formed row that went through the demand model, the
    mini-grid LCOE is a number well below the solar-kit sentinel. *)
Lemma pipeline_lcoe_mg_bound (s : Settlement) (d : DemandCols)
    (out : LcoeCols) :
  well_formed s ->
  run_demand_model s = Ok d -> run_lcoe_model s d = Ok out ->
  exists m, lcoe_mg out = Fin m /\ 0 <= m /\ m <= 4.
Proof.
  intros W Hd Ho.
  destruct (run_demand_model_scale s d W Hd)
    as (demand & peak & ED & EP & Dpos & Ppos & Pb & Hb).
  destruct (run_demand_model_households s d Hd) as (Hh & _ & _).
  rewrite Zle_Qle in Hh. change (inject_Z 1) with 1 in Hh.
  destruct (run_lcoe_model_lcoe_mg s d out demand peak Ho ED) as
    (v & c & Ec & Ev & Em); [lra | exact EP |].
  destruct (run_lcoe_model_capex_mg s d out demand peak Ho ED EP)
    as (v' & Ev' & Hv).
  rewrite Ev in Ev'. injection Ev' as <-.
  rewrite capex_mg_formula_linear in Hv.
  destruct crf_mg_bound as (c' & Ec' & C0 & C1).
  rewrite Ec in Ec'. injection Ec' as <-.
  destruct capex_mg_per_kwh_bound as (K0 & K1).
  set (K := capex_mg_formula 0 1 0) in *.
  set (hh := inject_Z (households d)) in *.
  assert (DK0 : 0 <= demand * K) by (apply Qmult_le_0_compat; lra).
  assert (DK : demand * K <= demand * 2) by (apply Qmult_le_l; lra).
  assert (V0 : 0 <= v) by lra.
  assert (V1 : v <= 25 * demand) by lra.
  assert (VC0 : 0 <= v * c) by (apply Qmult_le_0_compat; lra).
  assert (VC : v * c <= v * 0.11).
  { destruct (Qeq_dec v 0) as [Z | NZ]; [rewrite Z; lra |].
    apply Qmult_le_l; lra. }
  exists ((v * c + v * 0.03) / demand). split; [exact Em |]. split.
  - apply Qle_shift_div_l; [exact Dpos | lra].
  - apply Qle_shift_div_r; [exact Dpos | lra].
Qed.
(* ------------------------------------------------------------------ *)
(** ** Commercial demand: the claim *)

(** C10.  For every row with at least one building, and for every row of
    a table without the [num_buildings] column (the household count, at
    least 1, then stands in), the commercial demand is at least one SME
    unit, 600 kWh a year; so the row has positive productive demand and the
    cost model gives it the solar-kit sentinel 999.9.  Both models return
    on such a row: the demand model when the population is finite and the
    facility-count columns are in the table, the cost model when the two
    grid-distance columns are. *)
Theorem commercial_demand_floor :
  (forall s d,
     run_demand_model s = Ok d ->
     num_buildings s = None
     \/ (exists v, num_buildings s = Some v /\ Num.le (Fin 1) v) ->
     Num.le (Fin (LOADS "sme")) (dem_comm d)
     /\ LOADS "sme" == 600
     /\ (dem_comm d >? Fin 0)%num = true
     /\ forall out, run_lcoe_model s d = Ok out -> lcoe_shs out = Fin 999.9)
  /\ (forall s d a b,
        run_demand_model s = Ok d ->
        num_buildings s = None
        \/ (exists v, num_buildings s = Some v /\ Num.le (Fin 1) v) ->
        dist_to_substations s = Some a ->
        distance_to_existing_transmission_lines s = Some b ->
        exists out,
          run_lcoe_model s d = Ok out /\ lcoe_shs out = Fin 999.9)
  /\ (forall s p h e a b,
        population s = Fin p ->
        num_health_facilities s = Some h ->
        num_education_facilities s = Some e ->
        dist_to_substations s = Some a ->
        distance_to_existing_transmission_lines s = Some b ->
        num_buildings s = None
        \/ (exists v, num_buildings s = Some v /\ Num.le (Fin 1) v) ->
        exists d out,
          Pipeline.main s = Ok (d, out)
          /\ Num.le (Fin 600) (dem_comm d)
          /\ lcoe_shs out = Fin 999.9).
Proof.
  assert (Sent : forall s d out,
            run_demand_model s = Ok d ->
            num_buildings s = None
            \/ (exists v, num_buildings s = Some v /\ Num.le (Fin 1) v) ->
            run_lcoe_model s d = Ok out -> lcoe_shs out = Fin 999.9).
  { intros s d out H Hnb Hout.
    pose proof (run_demand_model_dem_comm s d H Hnb) as L.
    apply (run_lcoe_model_sentinel s d out Hout).
    rewrite (le_gt_zero 600 (dem_comm d)) by (lra || exact L).
    rewrite !orb_true_r. reflexivity. }
  split; [| split].
  - intros s d H Hnb.
    pose proof (run_demand_model_dem_comm s d H Hnb) as L.
    split; [exact L |]. split; [reflexivity |].
    split; [apply le_gt_zero with 600; [lra | exact L] |].
    intros out Hout. exact (Sent s d out H Hnb Hout).
  - intros s d a b H Hnb Ha Hb.
    destruct (run_lcoe_model_total s d a b Ha Hb) as (out & Hout).
    exists out. split; [exact Hout | exact (Sent s d out H Hnb Hout)].
  - intros s p h e a b Hp Hh He Ha Hb Hnb.
    destruct (run_demand_model_returns s p h e Hp Hh He) as (d & Hd).
    destruct (run_lcoe_model_total s d a b Ha Hb) as (out & Hout).
    exists d, out. split; [| split].
    + unfold Pipeline.main. rewrite Hd. cbn [bind]. rewrite Hout.
      reflexivity.
    + exact (run_demand_model_dem_comm s d Hd Hnb).
    + exact (Sent s d out Hd Hnb Hout).
Qed.

Lemma commercial_demand_floor_witness :
  (Num.le (Fin (LOADS "sme")) (dem_comm hamlet_demand)
   /\ LOADS "sme" == 600
   /\ (dem_comm hamlet_demand >? Fin 0)%num = true
   /\ forall out,
        run_lcoe_model hamlet hamlet_demand = Ok out ->
        lcoe_shs out = Fin 999.9)
  /\ (exists out,
        run_lcoe_model hamlet hamlet_demand = Ok out
        /\ lcoe_shs out = Fin 999.9)
  /\ (exists d out,
        Pipeline.main hamlet = Ok (d, out)
        /\ Num.le (Fin 600) (dem_comm d)
        /\ lcoe_shs out = Fin 999.9).
Proof.
  destruct commercial_demand_floor as (F1 & F2 & F3).
  split; [| split].
  - apply (F1 hamlet hamlet_demand); [exact hamlet_demand_ok | left; reflexivity].
  - apply (F2 hamlet hamlet_demand (Fin 50) (Fin 10));
      [exact hamlet_demand_ok | left; reflexivity | reflexivity | reflexivity].
  - apply (F3 hamlet 1000 (Fin 0) (Fin 0) (Fin 50) (Fin 10));
      try reflexivity. left. reflexivity.
Defined.

(* ------------------------------------------------------------------ *)
(** ** Least-cost selection: the claim *)



Lemma pipeline_total (s : Settlement) :
  well_formed s -> has_grid_distances s ->
  exists d out, Pipeline.main s = Ok (d, out)
                /\ run_demand_model s = Ok d /\ run_lcoe_model s d = Ok out.
Proof.
  intros W ((a & Ha & _) & (b & Hb & _)).
  destruct (run_demand_model_total s W) as (d & Hd).
  destruct (run_lcoe_model_total s d a b Ha Hb) as (out & Ho).
  exists d, out. unfold Pipeline.main. rewrite Hd. cbn [bind]. rewrite Ho.
  auto.
Qed.


Lemma hamlet_has_grid_distances : has_grid_distances hamlet.
Proof.
  split; [exists (Fin 50) | exists (Fin 10)];
    (split; [reflexivity | cbn; lra]).
Defined.


(* ------------------------------------------------------------------ *)
(** ** Solar home systems: the claim *)

Lemma sentinel_blocks_shs (gdf : Settlement) (dem : DemandCols)
    (out : LcoeCols) :
  run_lcoe_model gdf dem = Ok out ->
  shs_ineligible dem ->
  lcoe_shs out = Fin 999.9
  /\ (Num.le (lcoe_grid out) (Fin 999.9)
      \/ Num.le (lcoe_mg out) (Fin 999.9) ->
      optimal_tech out <> Some "SHS"%string).
Proof.
  intros H Hmask.
  assert (S : lcoe_shs out = Fin 999.9).
  { apply (run_lcoe_model_sentinel gdf dem out H).
    destruct Hmask as [T | [C | [A | P]]].
    - apply Z.gtb_lt in T. rewrite T. reflexivity.
    - rewrite C, !orb_true_r. reflexivity.
    - rewrite A, !orb_true_r. reflexivity.
    - rewrite P, !orb_true_r. reflexivity. }
  split; [exact S |].
  intros Hle Hopt.
  destruct (run_lcoe_model_selection gdf dem out H) as (Ht & _ & _).
  rewrite Hopt in Ht.
  destruct (idxmin _) as [c |] eqn:Hi in Ht; [| discriminate].
  symmetry in Ht. apply tech_label_shs in Ht. subst c.
  apply select_third in Hi. destruct Hi as [Hg Hm]. rewrite S in Hg, Hm.
  destruct Hle as [L | L]; apply le_not_lt in L as L'.
  - destruct Hg as [Hg | Hg]; [| congruence].
    destruct (lcoe_grid out); simpl in *; try discriminate; contradiction.
  - destruct Hm as [Hm | Hm]; [| congruence].
    destruct (lcoe_mg out); simpl in *; try discriminate; contradiction.
Qed.

(** C3, evaluated on the code.  The specification has a settlement whose
    tier is above the solar-kit ceiling, or that has any commercial,
    agricultural or public demand, never assigned SHS.  The code marks
    such a row with the finite cost 999.9 and then takes a plain [idxmin],
    and two rows show that the mark does not keep SHS out.  The row
    [hamlet_null_buildings], 1000 people in a table whose [num_buildings]
    cell is null, goes through the pipeline with an agricultural demand of
    4500 kWh a year (one mill); its grid and mini-grid LCOEs are NaN, and
    it is labelled SHS.  The row [tier4_demand], of tier 4, has grid and
    mini-grid LCOEs above 999.9, and is labelled SHS. *)
Theorem sentinel_row_assigned_shs :
  (exists d out,
     Pipeline.main hamlet_null_buildings = Ok (d, out)
     /\ dem_agri d = Fin 4500
     /\ shs_ineligible d
     /\ lcoe_shs out = Fin 999.9
     /\ lcoe_grid out = NaN /\ lcoe_mg out = NaN
     /\ optimal_tech out = Some "SHS"%string)
  /\ shs_ineligible tier4_demand
  /\ (exists out,
        run_lcoe_model remote_row tier4_demand = Ok out
        /\ lcoe_shs out = Fin 999.9
        /\ optimal_tech out = Some "SHS"%string
        /\ (Fin 999.9 <? lcoe_grid out)%num = true
        /\ (Fin 999.9 <? lcoe_mg out)%num = true).
Proof.
  split; [| split].
  - eexists. eexists. split; [vm_compute; reflexivity |].
    repeat split. right; right; left. reflexivity.
  - left. reflexivity.
  - eexists. split; [vm_compute; reflexivity |].
    repeat split; vm_compute; reflexivity.
Qed.

(* ------------------------------------------------------------------ *)
(** ** Further properties: the capital recovery factor *)

(** X1.  A zero life raises [ZeroDivisionError], whatever the rate. *)
Theorem crf_zero_life_raises (r : Q) : crf r 0 = Err ZeroDivisionError.
Proof.
  unfold crf. destruct (Qeq_bool r 0); [reflexivity |].
  rewrite andb_false_r. reflexivity.
Qed.


(* ------------------------------------------------------------------ *)
(** ** Further properties: the demand model *)

(** The classification and tier columns, read off the result. *)
Lemma run_demand_model_columns (s : Settlement) (d : DemandCols) :
  run_demand_model s = Ok d ->
  is_urban d
  = ((population s >? Fin 5000)%num
     || (as_num (get (num_buildings s) (PyInt 0)) >? Fin 500)%num)
  /\ kwh_hh d = map_dict TIER_KWH (tier d)
  /\ lf d = map_dict TIER_LF (tier d).
Proof.
  intros H. demand_inv H. cbn [is_urban kwh_hh lf tier].
  repeat split; reflexivity.
Qed.

(** X3.  Whatever the row, the consumption and load factor written are
    those of tier 1, 2 or 3: the lookup in the tier tables never misses,
    and the entries of tiers 4 and 5 are never used. *)
Theorem tier_table_columns (s : Settlement) (d : DemandCols) :
  run_demand_model s = Ok d ->
  (tier d = 1%Z /\ kwh_hh d = Fin 35 /\ lf d = Fin 0.18)
  \/ (tier d = 2%Z /\ kwh_hh d = Fin 220 /\ lf d = Fin 0.20)
  \/ (tier d = 3%Z /\ kwh_hh d = Fin 850 /\ lf d = Fin 0.25).
Proof.
  intros H.
  destruct (run_demand_model_columns s d H) as (_ & -> & ->).
  rewrite (run_demand_model_tier s d H).
  destruct (assign_tier_range s) as [-> | [-> | ->]];
    [left | right; left | right; right]; repeat split; reflexivity.
Qed.

Lemma tier_table_columns_witness :
  (tier hamlet_demand = 1%Z /\ kwh_hh hamlet_demand = Fin 35
   /\ lf hamlet_demand = Fin 0.18)
  \/ (tier hamlet_demand = 2%Z /\ kwh_hh hamlet_demand = Fin 220
      /\ lf hamlet_demand = Fin 0.20)
  \/ (tier hamlet_demand = 3%Z /\ kwh_hh hamlet_demand = Fin 850
      /\ lf hamlet_demand = Fin 0.25).
Proof.
  apply (tier_table_columns hamlet hamlet_demand). reflexivity.
Defined.

(** The household count of a finite population. *)
Lemma households_of (s : Settlement) (d : DemandCols) (p : Q) :
  run_demand_model s = Ok d -> population s = Fin p ->
  households d
  = Z.max 1 (Qceiling (p / (if is_urban d then 4.3 else 5.2))).
Proof.
  intros H Hp.
  destruct (run_demand_model_households s d H) as (_ & Hs & Hh).
  rewrite (Hh p Hp), Hs. reflexivity.
Qed.

(** X4.  With every other column fixed, more people never means fewer
    households, also across the urban threshold, where the household
    size drops from 5.2 to 4.3. *)
Theorem households_monotone (s : Settlement) (p1 p2 : Q)
    (d1 d2 : DemandCols) :
  p1 <= p2 ->
  run_demand_model (set_population s (Fin p1)) = Ok d1 ->
  run_demand_model (set_population s (Fin p2)) = Ok d2 ->
  (households d1 <= households d2)%Z
  /\ (is_urban d1 = true -> is_urban d2 = true).
Proof.
  intros Hp H1 H2.
  rewrite (households_of _ d1 p1 H1) by reflexivity.
  rewrite (households_of _ d2 p2 H2) by reflexivity.
  destruct (run_demand_model_columns _ d1 H1) as (U1 & _ & _).
  destruct (run_demand_model_columns _ d2 H2) as (U2 & _ & _).
  cbn [population num_buildings set_population] in U1, U2.
  change ((Fin p1 >? Fin 5000)%num) with (Num.Qltb 5000 p1) in U1.
  change ((Fin p2 >? Fin 5000)%num) with (Num.Qltb 5000 p2) in U2.
  set (nb := (as_num (get (num_buildings s) (PyInt 0)) >? Fin 500)%num) in *.
  assert (Mono : forall h : Q, 0 < h -> p1 / h <= p2 / h).
  { intros h Hh. apply Qmult_le_compat_r; [exact Hp |].
    apply Qlt_le_weak, Qinv_lt_0_compat, Hh. }
  destruct (Num.Qltb 5000 p1) eqn:T1, (Num.Qltb 5000 p2) eqn:T2;
    rewrite ?Qltb_true, ?Qltb_false in *; try lra;
    cbn [orb] in U1, U2.
  - rewrite U1, U2. split; [| reflexivity].
    apply Z.max_le_compat_l, Qceiling_resp_le, Mono. lra.
  - rewrite U2. destruct nb; rewrite U1.
    + split; [| reflexivity].
      apply Z.max_le_compat_l, Qceiling_resp_le, Mono. lra.
    + split; [| discriminate].
      apply Z.max_le_compat_l, Qceiling_resp_le.
      apply Qle_trans with (p2 / 5.2); [apply Mono; lra |].
      unfold Qdiv. apply Qmult_le_l; [lra | vm_compute; discriminate].
  - rewrite U1, U2. destruct nb; (split; [| auto]);
      apply Z.max_le_compat_l, Qceiling_resp_le, Mono; lra.
Qed.

Lemma households_monotone_witness :
  (households (from_ok no_demand
                 (run_demand_model (set_population hamlet (Fin 5000))))
   <= households (from_ok no_demand
                    (run_demand_model (set_population hamlet (Fin 5001)))))%Z
  /\ (is_urban (from_ok no_demand
                  (run_demand_model (set_population hamlet (Fin 5000)))) = true
      -> is_urban (from_ok no_demand
                     (run_demand_model (set_population hamlet (Fin 5001))))
         = true).
Proof.
  apply (households_monotone hamlet 5000 5001);
    [lra | reflexivity | reflexivity].
Defined.

(** The shape of the result for a well-formed row, with the tier columns. *)
Lemma run_demand_model_shape_lf (s : Settlement) (d : DemandCols) :
  well_formed s ->
  run_demand_model s = Ok d ->
  exists k f u c a p,
    ((k = 35 /\ f = 0.18) \/ (k = 220 /\ f = 0.20) \/ (k = 850 /\ f = 0.25))
    /\ (u = 0.95 \/ u = TARGET_UPTAKE_2040)
    /\ 0 <= c /\ 0 <= a /\ 0 <= p
    /\ dem_res d = Fin (inject_Z (households d) * k * u)
    /\ dem_comm d = Fin c /\ dem_agri d = Fin a /\ dem_pub d = Fin p
    /\ projected_demand d
       = Fin ((inject_Z (households d) * k * u + c + a + p) * growth)
    /\ projected_peak d
       = Fin ((inject_Z (households d) * k + c + a + p) * growth / 8760 / f)
    /\ kwh_hh d = Fin k /\ lf d = Fin f.
Proof.
  intros (Hpop & Hnb & (h & Hh & Ch) & (e & He & Ce)) H.
  destruct Hpop as (pop & Hpop & Hpop0).
  pose proof (run_demand_model_households s d H) as (Hhh & _ & _).
  pose proof H as H'. demand_inv H'.
  cbn [dem_res dem_comm dem_agri dem_pub projected_demand projected_peak
       households kwh_hh lf] in *.
  destruct (tier_tables s) as (k & f & -> & -> & Hkf).
  destruct (gravity_bounds a0 (fillna_not_nan _ _ _ E0)) as (g & -> & G1 & G2).
  destruct (estimate_agri_loads_total s
              ((population s >? Fin 5000)%num
               || (as_num (get (num_buildings s) (PyInt 0)) >? Fin 500)%num)
              pop Hpop) as (agri & Ea & Ha).
  rewrite Ea in E1. apply Ok_inj in E1. subst a1.
  rewrite Hh, fillna_present in E2. apply Ok_inj in E2. subst a2.
  rewrite He, fillna_present in E3. apply Ok_inj in E3. subst a3.
  destruct (count_cell_filled h Ch) as (hq & -> & Hhq).
  destruct (count_cell_filled e Ce) as (eq & -> & Heq).
  change (LOADS "sme") with 600. change (LOADS "freezer") with 2500.
  change (LOADS "health") with 4000. change (LOADS "education") with 1500.
  set (urban := (population s >? Fin 5000)%num
         || (as_num (get (num_buildings s) (PyInt 0)) >? Fin 500)%num) in *.
  assert (Base : 0 < (if urban then 50 else 100)) by (destruct urban; lra).
  assert (Hq : 1 <= inject_Z a).
  { change 1 with (inject_Z 1). rewrite <- Zle_Qle. exact Hhh. }
  assert (Sme : exists c,
            (Num.ceil (as_num (get (num_buildings s) (Series (Num.of_Z a)))
                       / Fin (if urban then 50 else 100) * Fin g)
             * Fin 600)%num = Fin c /\ 0 <= c).
  { destruct (num_buildings s) as [[q | | |] |]; try contradiction;
      cbn [get as_num]; unfold Num.of_Z; apply sme_units_nonneg; lra. }
  destruct Sme as (c0 & -> & Hc0).
  assert (Comm : exists c,
            match dist_lake_river_km s with
            | Some d0 =>
                if (d0 <? Fin 3.0)%num && (population s >? Fin 200)%num
                then (Fin c0 + Num.ceil (Num.of_Z a / Fin 100) * Fin 2500)%num
                else Fin c0
            | None => Fin c0
            end = Fin c /\ 0 <= c).
  { destruct (dist_lake_river_km s) as [lake |]; [| exists c0; auto].
    destruct ((lake <? Fin 3.0)%num && (population s >? Fin 200)%num);
      [| exists c0; auto].
    destruct (freezer_units_nonneg a 2500 Hhh) as (t & -> & Ht); [lra |].
    cbn [Num.add]. eexists. split; [reflexivity | lra]. }
  destruct Comm as (c & -> & Hc).
  unfold Num.of_Z. cbn [Num.mul Num.add].
  rewrite div_Fin by (intro C; vm_compute in C; discriminate C).
  rewrite div_Fin
    by (destruct Hkf as [[_ ->] | [[_ ->] | [_ ->]]];
        intro C; vm_compute in C; discriminate C).
  exists k, f, (if urban then 0.95 else TARGET_UPTAKE_2040), c, agri,
         (hq * 4000 + eq * 1500).
  split; [exact Hkf |].
  split; [destruct urban; auto |].
  repeat split; try reflexivity; try assumption.
  apply Qle_trans with (0 + 0); [lra |].
  apply Qplus_le_compat; apply Qmult_le_0_compat; lra.
Qed.

(** X5.  For every well-formed row the demand model returns; the four
    demand components are numbers, the residential one positive and the
    others non-negative; and the projected demand is their sum times the
    growth factor, which is at least 1. *)
Theorem demand_components (s : Settlement) :
  well_formed s ->
  exists d r c a p,
    run_demand_model s = Ok d
    /\ dem_res d = Fin r /\ dem_comm d = Fin c
    /\ dem_agri d = Fin a /\ dem_pub d = Fin p
    /\ 0 < r /\ 0 <= c /\ 0 <= a /\ 0 <= p
    /\ projected_demand d = Fin ((r + c + a + p) * growth)
    /\ 1 <= growth.
Proof.
  intros W. destruct (run_demand_model_total s W) as (d & Hd).
  destruct (run_demand_model_components s d W Hd)
    as (r & c & a & p & Er & Ec & Ea & Ep & Hr & Hc & Ha & Hp & ED).
  exists d, r, c, a, p. repeat split; try assumption. apply growth_ge_1.
Qed.

Lemma demand_components_witness :
  exists d r c a p,
    run_demand_model hamlet = Ok d
    /\ dem_res d = Fin r /\ dem_comm d = Fin c
    /\ dem_agri d = Fin a /\ dem_pub d = Fin p
    /\ 0 < r /\ 0 <= c /\ 0 <= a /\ 0 <= p
    /\ projected_demand d = Fin ((r + c + a + p) * growth)
    /\ 1 <= growth.
Proof. apply (demand_components hamlet). exact hamlet_well_formed. Defined.

(** X6.  For every well-formed row the design peak is sized for full
    uptake: the energy it stands for, [projected_peak * 8760 * lf], is at
    least the projected demand, and at most that demand divided by the
    rural uptake 0.85. *)
Theorem design_peak_covers_demand (s : Settlement) (d : DemandCols) :
  well_formed s ->
  run_demand_model s = Ok d ->
  exists demand peak f,
    projected_demand d = Fin demand /\ projected_peak d = Fin peak
    /\ lf d = Fin f /\ 0 < f
    /\ demand <= peak * 8760 * f
    /\ peak * 8760 * f * 0.85 <= demand.
Proof.
  intros W H.
  destruct (run_demand_model_shape_lf s d W H)
    as (k & f & u & c & a & p & Hkf & Hu & Hc & Ha & Hp
        & _ & _ & _ & _ & ED & EP & _ & EL).
  destruct (run_demand_model_households s d H) as (Hh & _ & _).
  rewrite Zle_Qle in Hh. change (inject_Z 1) with 1 in Hh.
  pose proof growth_ge_1 as G.
  set (hh := inject_Z (households d)) in *.
  set (g := growth) in *.
  assert (Hhg : 0 <= hh * g) by (apply Qmult_le_0_compat; lra).
  assert (Hcg : 0 <= c * g) by (apply Qmult_le_0_compat; lra).
  assert (Hag : 0 <= a * g) by (apply Qmult_le_0_compat; lra).
  assert (Hpg : 0 <= p * g) by (apply Qmult_le_0_compat; lra).
  exists ((hh * k * u + c + a + p) * g),
         ((hh * k + c + a + p) * g / 8760 / f), f.
  split; [exact ED |]. split; [exact EP |]. split; [exact EL |].
  unfold TARGET_UPTAKE_2040 in Hu.
  assert (Peak : (hh * k + c + a + p) * g / 8760 / f * 8760 * f
                 == (hh * k + c + a + p) * g).
  { field. destruct Hkf as [[_ ->] | [[_ ->] | [_ ->]]]; lra. }
  set (pk := (hh * k + c + a + p) * g / 8760 / f) in *.
  assert (Fpos : 0 < f)
    by (destruct Hkf as [[_ ->] | [[_ ->] | [_ ->]]]; lra).
  split; [exact Fpos |].
  assert (Peak085 : pk * 8760 * f * 0.85
                    == (hh * k + c + a + p) * g * 0.85)
    by (rewrite Peak; reflexivity).
  destruct Hkf as [[-> _] | [[-> _] | [-> _]]];
    destruct Hu as [-> | ->]; split; lra.
Qed.

Lemma design_peak_covers_demand_witness :
  exists demand peak f,
    projected_demand hamlet_demand = Fin demand
    /\ projected_peak hamlet_demand = Fin peak
    /\ lf hamlet_demand = Fin f /\ 0 < f
    /\ demand <= peak * 8760 * f
    /\ peak * 8760 * f * 0.85 <= demand.
Proof.
  apply (design_peak_covers_demand hamlet hamlet_demand);
    [exact hamlet_well_formed | reflexivity].
Defined.

(* ------------------------------------------------------------------ *)
(** ** Further properties: when the demand model raises *)

(** X7.  On a row whose geometry is not null, the demand model raises on
    a null or [+inf] population (the cast of the household count to
    [int]), and otherwise exactly when a facility-count column is missing;
    the cells of the other columns, null or not, never make it raise. *)
Theorem run_demand_model_errors (s : Settlement) :
  match population s with
  | NaN | PInf => run_demand_model s = Err IntCastingNaNError
  | Fin _ | NInf =>
      match num_health_facilities s, num_education_facilities s with
      | Some _, Some _ => exists d, run_demand_model s = Ok d
      | _, _ => run_demand_model s = Err AttributeError
      end
  end.
Proof.
  unfold run_demand_model.
  set (urban := (population s >? Fin 5000)%num
         || (as_num (get (num_buildings s) (PyInt 0)) >? Fin 500)%num).
  destruct (population s) as [p | | |] eqn:Hp.
  - rewrite div_Fin by apply hh_size_nonzero.
    rewrite ceil_clip_astype. cbn [bind].
    destruct (fillna_series_default (dist_nearest_hub_km s) (Fin 30) 30)
      as (hub & ->). cbn [bind].
    destruct (estimate_agri_loads_total s urban p Hp) as (agri & -> & _).
    cbn [bind].
    destruct (num_health_facilities s) as [h |]; [| reflexivity].
    destruct (num_education_facilities s) as [e |]; [| reflexivity].
    rewrite !fillna_present. cbn [bind]. eexists. reflexivity.
  - assert (E : Num.ceil (PInf / Fin (if urban then 4.3 else 5.2)) = PInf)
      by (destruct urban; reflexivity).
    rewrite E. reflexivity.
  - assert (E : astype_int
                  (Num.clip_lower
                     (Num.ceil (NInf / Fin (if urban then 4.3 else 5.2)))
                     (Fin 1)) = Ok 1%Z)
      by (destruct urban; reflexivity).
    rewrite E. cbn [bind].
    destruct (fillna_series_default (dist_nearest_hub_km s) (Fin 30) 30)
      as (hub & ->). cbn [bind].
    assert (A : estimate_agri_loads s urban = Ok 0).
    { unfold estimate_agri_loads. rewrite Hp.
      cbn [Num.gt Num.lt]. rewrite !andb_false_r. reflexivity. }
    rewrite A. cbn [bind].
    destruct (num_health_facilities s) as [h |]; [| reflexivity].
    destruct (num_education_facilities s) as [e |]; [| reflexivity].
    rewrite !fillna_present. cbn [bind]. eexists. reflexivity.
  - reflexivity.
Qed.

(* ------------------------------------------------------------------ *)
(** ** Further properties: agricultural loads *)

Lemma py_int_floor (p c t : Q) :
  0 <= t -> 0 < c -> Num.Qltb t p = true ->
  (if Qle_bool 0 (p / c) then Qfloor (p / c) else Qceiling (p / c))
  = Qfloor (p / c).
Proof.
  intros Ht Hc T. apply Qltb_true in T.
  assert (L : Qle_bool 0 (p / c) = true).
  { apply Qle_bool_iff. apply Qle_shift_div_l; [exact Hc | lra]. }
  rewrite L. reflexivity.
Qed.

(** The three rules are independent and additive. *)
Lemma estimate_agri_loads_sum (row : Settlement) (urban : bool) (p : Q) :
  population row = Fin p ->
  exists v,
    estimate_agri_loads row urban = Ok v
    /\ v == agri_rule (mill_fires urban p) p 1500 (LOADS "mill")
          + agri_rule (irrigation_fires row p) p 800 (LOADS "irrigation")
          + agri_rule (dryer_fires row urban p) p 2000 (LOADS "dryer").
Proof.
  intros Hp. unfold estimate_agri_loads, mill_fires, irrigation_fires,
    dryer_fires, agri_rule. rewrite Hp.
  change ((Fin p >? Fin 500)%num) with (Num.Qltb 500 p).
  change ((Fin p >? Fin 300)%num) with (Num.Qltb 300 p).
  change ((Fin p >? Fin 400)%num) with (Num.Qltb 400 p).
  rewrite !div_Fin by (intro C; vm_compute in C; discriminate C).
  cbn [py_int bind].
  set (water := (as_num (get (dist_lake_river_km row) (PyInt 99))
                 <? Fin 3.0)%num).
  set (north := (match geometry row with Some y => y | None => Fin 0 end
                 >? Fin 8.0)%num).
  pose proof (py_int_floor p 1500 500) as F1.
  pose proof (py_int_floor p 800 300) as F2.
  pose proof (py_int_floor p 2000 400) as F3.
  destruct (Num.Qltb 500 p) eqn:T1;
    [rewrite F1 by (reflexivity || lra) |];
    (destruct (Num.Qltb 300 p) eqn:T2;
       [rewrite F2 by (reflexivity || lra) |]);
    (destruct (Num.Qltb 400 p) eqn:T3;
       [rewrite F3 by (reflexivity || lra) |]);
    destruct urban, water, north; cbn [negb andb bind];
    eexists; (split; [reflexivity | ring]).
Qed.

(** X8.  For a finite population the agricultural demand is the sum of
    three terms that do not depend on one another: grain mills (rural,
    population over 500), irrigation pumps (lake or river within 3 km,
    population over 300) and cashew dryers (north of latitude 8, rural,
    population over 400), each [max(1, floor(pop / divisor))] units of its
    load when its rule fires and nothing otherwise. *)
Theorem agricultural_rules_additive (row : Settlement) (urban : bool)
    (p : Q) :
  population row = Fin p ->
  exists v,
    estimate_agri_loads row urban = Ok v
    /\ v == agri_rule (mill_fires urban p) p 1500 4500
          + agri_rule (irrigation_fires row p) p 800 3500
          + agri_rule (dryer_fires row urban p) p 2000 6000.
Proof. exact (estimate_agri_loads_sum row urban p). Qed.

Lemma agricultural_rules_additive_witness :
  exists v,
    estimate_agri_loads hamlet false = Ok v
    /\ v == agri_rule (mill_fires false 1000) 1000 1500 4500
          + agri_rule (irrigation_fires hamlet 1000) 1000 800 3500
          + agri_rule (dryer_fires hamlet false 1000) 1000 2000 6000.
Proof.
  apply (agricultural_rules_additive hamlet false 1000). reflexivity.
Defined.

Lemma agri_rule_mono (f1 f2 : bool) (p1 p2 c load : Q) :
  (f1 = true -> f2 = true) -> p1 <= p2 -> 0 < c -> 0 <= load ->
  agri_rule f1 p1 c load <= agri_rule f2 p2 c load.
Proof.
  intros Hf Hp Hc Hl. unfold agri_rule.
  assert (U : forall p, 0 <= inject_Z (Z.max 1 (Qfloor (p / c))) * load).
  { intros p. apply Qmult_le_0_compat; [| exact Hl].
    change 0 with (inject_Z 0). rewrite <- Zle_Qle. lia. }
  destruct f1.
  - rewrite (Hf eq_refl). apply Qmult_le_compat_r; [| exact Hl].
    rewrite <- Zle_Qle. apply Z.max_le_compat_l, Qfloor_resp_le.
    apply Qmult_le_compat_r; [exact Hp |].
    apply Qlt_le_weak, Qinv_lt_0_compat, Hc.
  - destruct f2; [apply U | lra].
Qed.

Lemma Qltb_mono (t p1 p2 : Q) :
  p1 <= p2 -> Num.Qltb t p1 = true -> Num.Qltb t p2 = true.
Proof. rewrite !Qltb_true. intros; lra. Qed.

(** X9.  For a fixed row and a fixed urban flag, the agricultural demand
    never decreases when the population grows. *)
Theorem agricultural_demand_monotone (row : Settlement) (urban : bool)
    (p1 p2 v1 v2 : Q) :
  p1 <= p2 ->
  estimate_agri_loads (set_population row (Fin p1)) urban = Ok v1 ->
  estimate_agri_loads (set_population row (Fin p2)) urban = Ok v2 ->
  v1 <= v2.
Proof.
  intros Hp E1 E2.
  destruct (estimate_agri_loads_sum (set_population row (Fin p1)) urban p1)
    as (w1 & W1 & S1); [reflexivity |].
  destruct (estimate_agri_loads_sum (set_population row (Fin p2)) urban p2)
    as (w2 & W2 & S2); [reflexivity |].
  rewrite E1 in W1. rewrite E2 in W2.
  apply Ok_inj in W1. apply Ok_inj in W2. subst w1 w2.
  rewrite S1, S2.
  change (LOADS "mill") with 4500. change (LOADS "irrigation") with 3500.
  change (LOADS "dryer") with 6000.
  unfold mill_fires, irrigation_fires, dryer_fires.
  cbn [dist_lake_river_km geometry set_population].
  repeat apply Qplus_le_compat; apply agri_rule_mono;
    try exact Hp; try lra;
    intros F; repeat (apply andb_true_iff in F; destruct F as [F ?]);
    repeat (apply andb_true_iff; split); try assumption;
    eapply Qltb_mono; eassumption.
Qed.

Lemma agricultural_demand_monotone_witness :
  from_ok 0 (estimate_agri_loads (set_population hamlet (Fin 1000)) false)
  <= from_ok 0 (estimate_agri_loads (set_population hamlet (Fin 4000)) false).
Proof.
  apply (agricultural_demand_monotone hamlet false 1000 4000);
    [lra | reflexivity | reflexivity].
Defined.

(** X10.  Below the smallest threshold no rule fires: a row with a null
    population, or with at most 300 people, has no agricultural demand;
    nor has an urban row with no lake or river within 3 km, whatever its
    population. *)
Theorem no_agricultural_load (row : Settlement) (urban : bool) :
  (population row = NaN
   \/ (exists p, population row = Fin p /\ p <= 300)
   \/ (urban = true
       /\ (as_num (get (dist_lake_river_km row) (PyInt 99)) <? Fin 3.0)%num
          = false)) ->
  estimate_agri_loads row urban = Ok 0.
Proof.
  intros [Hn | [(p & Hp & Hle) | (Hu & Hw)]]; unfold estimate_agri_loads.
  - rewrite Hn. cbn [Num.gt Num.lt]. rewrite !andb_false_r. reflexivity.
  - rewrite Hp.
    change ((Fin p >? Fin 500)%num) with (Num.Qltb 500 p).
    change ((Fin p >? Fin 300)%num) with (Num.Qltb 300 p).
    change ((Fin p >? Fin 400)%num) with (Num.Qltb 400 p).
    assert (T1 : Num.Qltb 500 p = false) by (apply Qltb_false; lra).
    assert (T2 : Num.Qltb 300 p = false) by (apply Qltb_false; lra).
    assert (T3 : Num.Qltb 400 p = false) by (apply Qltb_false; lra).
    rewrite T1, T2, T3, !andb_false_r. reflexivity.
  - rewrite Hu, Hw. cbn [negb andb]. rewrite andb_false_r. reflexivity.
Qed.

Lemma no_agricultural_load_witness :
  estimate_agri_loads (set_population hamlet (Fin 250)) false = Ok 0.
Proof.
  apply no_agricultural_load. right; left. exists 250.
  split; [reflexivity | lra].
Defined.

(* ------------------------------------------------------------------ *)
(** ** Further properties: the cost model *)

(** The solar-kit columns of a row with a kit tier and a finite demand. *)
Lemma run_lcoe_model_shs (gdf : Settlement) (dem : DemandCols)
    (out : LcoeCols) (demand : Q) :
  run_lcoe_model gdf dem = Ok out ->
  (1 <= households dem)%Z ->
  (tier dem = 1 \/ tier dem = 2 \/ tier dem = 3)%Z ->
  projected_demand dem = Fin demand ->
  exists cost cap c e,
    map_dict SHS_COST (tier dem) = Fin cost
    /\ map_dict SHS_CAP (tier dem) = Fin cap
    /\ 0 < cost /\ 0 < cap
    /\ crf DISCOUNT_RATE 5 = Ok c
    /\ capex_shs out = Fin (cost * inject_Z (households dem))
    /\ energy_delivered out = Fin (e * inject_Z (households dem))
    /\ e == Qmin (demand / inject_Z (households dem)) cap
    /\ lcoe_shs out =
         if (tier dem >? MAX_TIER_SHS)%Z
            || ((dem_comm dem >? Fin 0)%num || (dem_agri dem >? Fin 0)%num
                || (dem_pub dem >? Fin 0)%num)
         then Fin 999.9
         else ((Fin (cost * inject_Z (households dem) * c
                     + cost * inject_Z (households dem) * 0.05))
               / Fin (e * inject_Z (households dem)))%num.
Proof.
  intros H Hh Ht HD. apply inject_Z_pos in Hh.
  lcoe_inv H. cbn [energy_delivered lcoe_shs capex_shs]. rewrite HD.
  assert (Kit : exists cost cap,
            map_dict SHS_COST (tier dem) = Fin cost
            /\ map_dict SHS_CAP (tier dem) = Fin cap
            /\ 0 < cost /\ 0 < cap).
  { destruct Ht as [-> | [-> | ->]]; cbn; do 2 eexists;
      repeat split; reflexivity. }
  destruct Kit as (cost & cap & -> & -> & Hcost & Hcap).
  unfold Num.of_Z. rewrite div_Fin by lra.
  destruct (minimum_Fin (demand / inject_Z (households dem)) cap)
    as (e & -> & He).
  cbn [Num.mul Num.add].
  exists cost, cap, a3, e. repeat split; try assumption; reflexivity.
Qed.

(** X12.  A solar kit never delivers more than is asked for, nor more than
    its tier's cap per household: the delivered energy is the smaller of
    the projected demand and cap x households. *)
Theorem delivered_energy_capped (gdf : Settlement) (dem : DemandCols)
    (out : LcoeCols) (demand : Q) :
  run_lcoe_model gdf dem = Ok out ->
  (1 <= households dem)%Z ->
  (tier dem = 1 \/ tier dem = 2 \/ tier dem = 3)%Z ->
  projected_demand dem = Fin demand ->
  exists cap delivered,
    map_dict SHS_CAP (tier dem) = Fin cap
    /\ energy_delivered out = Fin delivered
    /\ delivered == Qmin demand (cap * inject_Z (households dem)).
Proof.
  intros H Hh Ht HD.
  destruct (run_lcoe_model_shs gdf dem out demand H Hh Ht HD)
    as (cost & cap & c & e & _ & Ecap & _ & Hcap & _ & _ & Ee & He & _).
  apply inject_Z_pos in Hh.
  exists cap, (e * inject_Z (households dem)).
  split; [exact Ecap |]. split; [exact Ee |]. rewrite He.
  set (hh := inject_Z (households dem)) in *.
  assert (D : demand / hh * hh == demand) by (field; lra).
  destruct (Qlt_le_dec cap (demand / hh)) as [L | L].
  - rewrite (Q.min_r (demand / hh) cap) by lra.
    assert (cap * hh < demand / hh * hh) by (apply Qmult_lt_compat_r; lra).
    rewrite Q.min_r by lra. reflexivity.
  - rewrite (Q.min_l (demand / hh) cap) by lra.
    assert (demand / hh * hh <= cap * hh) by (apply Qmult_le_compat_r; lra).
    rewrite Q.min_l by lra. exact D.
Qed.

Lemma delivered_energy_capped_witness :
  exists cap delivered,
    map_dict SHS_CAP (tier kit_demand) = Fin cap
    /\ energy_delivered kit_lcoe = Fin delivered
    /\ delivered == Qmin 220 (cap * inject_Z (households kit_demand)).
Proof.
  apply (delivered_energy_capped vacant_row kit_demand kit_lcoe);
    [reflexivity | discriminate | left; reflexivity | reflexivity].
Defined.

(** X13.  For a row that is eligible for a solar kit (tier 1 to 3, no
    positive commercial, agricultural or public demand) with a positive
    demand, the LCOE of the kit is its annualized cost per household over
    the energy delivered per household: it depends on the tier alone once
    the demand per household reaches the tier's cap, and is the annualized
    cost of all kits over the projected demand below the cap. *)
Theorem shs_lcoe_eligible (gdf : Settlement) (dem : DemandCols)
    (out : LcoeCols) (demand : Q) :
  run_lcoe_model gdf dem = Ok out ->
  (1 <= households dem)%Z ->
  (tier dem = 1 \/ tier dem = 2 \/ tier dem = 3)%Z ->
  projected_demand dem = Fin demand -> 0 < demand ->
  (dem_comm dem >? Fin 0)%num = false ->
  (dem_agri dem >? Fin 0)%num = false ->
  (dem_pub dem >? Fin 0)%num = false ->
  exists cost cap c v,
    map_dict SHS_COST (tier dem) = Fin cost
    /\ map_dict SHS_CAP (tier dem) = Fin cap
    /\ crf DISCOUNT_RATE 5 = Ok c
    /\ lcoe_shs out = Fin v
    /\ (cap <= demand / inject_Z (households dem) ->
        v == cost * (c + 0.05) / cap)
    /\ (demand / inject_Z (households dem) <= cap ->
        v == cost * inject_Z (households dem) * (c + 0.05) / demand).
Proof.
  intros H Hh Ht HD Dpos Mc Ma Mp.
  destruct (run_lcoe_model_shs gdf dem out demand H Hh Ht HD)
    as (cost & cap & c & e & Ecost & Ecap & Hcost & Hcap & Ec & _ & _
        & He & El).
  apply inject_Z_pos in Hh.
  assert (T : (tier dem >? MAX_TIER_SHS)%Z = false).
  { destruct Ht as [-> | [-> | ->]]; reflexivity. }
  rewrite T, Mc, Ma, Mp in El. cbn [orb] in El.
  set (hh := inject_Z (households dem)) in *.
  assert (Per : 0 < demand / hh) by (apply Qlt_shift_div_l; lra).
  assert (Epos : 0 < e).
  { rewrite He. destruct (Qlt_le_dec cap (demand / hh)).
    - rewrite Q.min_r; lra.
    - rewrite Q.min_l; lra. }
  assert (EH : 0 < e * hh) by (apply Qmult_lt_0_compat; lra).
  rewrite div_Fin in El by lra.
  exists cost, cap, c, ((cost * hh * c + cost * hh * 0.05) / (e * hh)).
  repeat split; try assumption.
  - intros L. rewrite Q.min_r in He by exact L.
    rewrite He. field. lra.
  - intros L. rewrite Q.min_l in He by exact L.
    rewrite He. field. lra.
Qed.

Lemma shs_lcoe_eligible_witness :
  exists cost cap c v,
    map_dict SHS_COST (tier kit_demand) = Fin cost
    /\ map_dict SHS_CAP (tier kit_demand) = Fin cap
    /\ crf DISCOUNT_RATE 5 = Ok c
    /\ lcoe_shs kit_lcoe = Fin v
    /\ (cap <= 220 / inject_Z (households kit_demand) ->
        v == cost * (c + 0.05) / cap)
    /\ (220 / inject_Z (households kit_demand) <= cap ->
        v == cost * inject_Z (households kit_demand) * (c + 0.05) / 220).
Proof.
  apply (shs_lcoe_eligible vacant_row kit_demand kit_lcoe);
    try reflexivity.
  - discriminate.
  - left. reflexivity.
Defined.

(** The grid columns of a row with finite distances, peak and demand. *)
Lemma run_lcoe_model_grid (gdf : Settlement) (dem : DemandCols)
    (out : LcoeCols) (a b demand peak : Q) :
  run_lcoe_model gdf dem = Ok out ->
  dist_to_substations gdf = Some (Fin a) ->
  distance_to_existing_transmission_lines gdf = Some (Fin b) ->
  projected_demand dem = Fin demand -> ~ demand == 0 ->
  projected_peak dem = Fin peak ->
  exists m c cg g,
    m == Qmin a (b + SUBSTATION_COST / MV_COST_KM)
    /\ crf DISCOUNT_RATE 40 = Ok c /\ 0 < c
    /\ capex_grid out = Fin cg
    /\ cg == m * MV_COST_KM * terrain_factor_of gdf
             + grid_local_cost (households dem) peak
    /\ lcoe_grid out = Fin g
    /\ g == (cg * (c + 0.02) + demand / (1 - GRID_LOSS) * GRID_PRICE)
            / demand.
Proof.
  intros H Ha Hb HD Hnz HP.
  destruct (crf_discount_ok 40) as (c & Ec & Hc); [lia |].
  unfold run_lcoe_model in H. rewrite Ha, Hb, !fillna_present in H.
  cbn [Num.isnan bind Num.add] in H.
  destruct (minimum_Fin a (b + SUBSTATION_COST / MV_COST_KM))
    as (m & Em & Hm).
  rewrite Em, Ec in H. cbn [bind] in H.
  bind_ok H. apply Ok_inj in H. subst out. cbn [capex_grid lcoe_grid].
  rewrite HD, HP. unfold Num.of_Z. cbn [Num.mul Num.add].
  rewrite !div_Fin by nonzero_const.
  cbn [Num.ceil Num.of_Z Num.mul Num.add].
  rewrite div_Fin by exact Hnz.
  exists m, c. do 2 eexists.
  split; [exact Hm |]. split; [exact Ec |]. split; [exact Hc |].
  split; [reflexivity |].
  unfold terrain_factor_of, grid_local_cost.
  split; [ring |].
  split; [reflexivity |].
  field. split; [nonzero_const | exact Hnz].
Qed.

Lemma terrain_factor_pos (gdf : Settlement) : 1 <= terrain_factor_of gdf.
Proof.
  unfold terrain_factor_of.
  destruct (as_num (get (main_road_access gdf) (PyInt 1)) =? Fin 0)%num; lra.
Qed.

Lemma grid_local_cost_nonneg (hh : Z) (peak : Q) :
  (0 <= hh)%Z -> 0 <= peak -> 0 <= grid_local_cost hh peak.
Proof.
  intros Hh Hp. unfold grid_local_cost, LV_COST_KM, TRANSFORMER_COST, CONN_GRID.
  rewrite Zle_Qle in Hh. change (inject_Z 0) with 0 in Hh.
  assert (C : 0 <= inject_Z (Qceiling (peak * 0.6 / 45))).
  { change 0 with (inject_Z 0). rewrite <- Zle_Qle. apply zero_le_ceiling.
    apply Qle_shift_div_l; lra. }
  lra.
Qed.

(** X14.  With a positive demand, non-negative distances and design peak,
    the grid LCOE is never below the price of the energy bought, the
    wholesale price divided by [1 - GRID_LOSS]. *)
Theorem grid_lcoe_floor (gdf : Settlement) (dem : DemandCols)
    (out : LcoeCols) (a b demand peak : Q) :
  run_lcoe_model gdf dem = Ok out ->
  dist_to_substations gdf = Some (Fin a) -> 0 <= a ->
  distance_to_existing_transmission_lines gdf = Some (Fin b) -> 0 <= b ->
  (0 <= households dem)%Z ->
  projected_demand dem = Fin demand -> 0 < demand ->
  projected_peak dem = Fin peak -> 0 <= peak ->
  exists g, lcoe_grid out = Fin g /\ GRID_PRICE / (1 - GRID_LOSS) <= g.
Proof.
  intros H Ha A0 Hb B0 Hh HD Dpos HP P0.
  destruct (run_lcoe_model_grid gdf dem out a b demand peak H Ha Hb HD)
    as (m & c & cg & g & Hm & _ & Hc & _ & Hcg & Eg & Hg); [lra | exact HP |].
  exists g. split; [exact Eg |].
  pose proof (terrain_factor_pos gdf) as T.
  pose proof (grid_local_cost_nonneg (households dem) peak Hh P0) as L.
  assert (M0 : 0 <= m).
  { assert (Pen : 0 <= SUBSTATION_COST / MV_COST_KM)
      by (vm_compute; discriminate).
    rewrite Hm. apply Q.min_glb; [exact A0 | lra]. }
  assert (MT : 0 <= m * MV_COST_KM * terrain_factor_of gdf).
  { apply Qmult_le_0_compat; [| lra].
    apply Qmult_le_0_compat; [exact M0 | unfold MV_COST_KM; lra]. }
  assert (CG : 0 <= cg * (c + 0.02))
    by (apply Qmult_le_0_compat; lra).
  rewrite Hg. apply Qle_shift_div_l; [exact Dpos |].
  assert (E : GRID_PRICE / (1 - GRID_LOSS) * demand
              == demand / (1 - GRID_LOSS) * GRID_PRICE)
    by (field; nonzero_const).
  lra.
Qed.

Lemma grid_lcoe_floor_witness :
  exists g,
    lcoe_grid kit_lcoe = Fin g
    /\ GRID_PRICE / (1 - GRID_LOSS) <= g.
Proof.
  apply (grid_lcoe_floor vacant_row kit_demand kit_lcoe 10 10 220 0.2);
    try reflexivity; discriminate.
Defined.

(** X15.  With every other column fixed, a substation further away never
    gives a lower grid capital cost or grid LCOE. *)
Theorem grid_lcoe_monotone_in_distance (gdf : Settlement)
    (dem : DemandCols) (a1 a2 b demand peak : Q) (out1 out2 : LcoeCols) :
  a1 <= a2 ->
  distance_to_existing_transmission_lines gdf = Some (Fin b) ->
  projected_demand dem = Fin demand -> 0 < demand ->
  projected_peak dem = Fin peak ->
  run_lcoe_model (set_dist_to_substations gdf (Some (Fin a1))) dem = Ok out1 ->
  run_lcoe_model (set_dist_to_substations gdf (Some (Fin a2))) dem = Ok out2 ->
  exists c1 c2 g1 g2,
    capex_grid out1 = Fin c1 /\ capex_grid out2 = Fin c2 /\ c1 <= c2
    /\ lcoe_grid out1 = Fin g1 /\ lcoe_grid out2 = Fin g2 /\ g1 <= g2.
Proof.
  intros Ha Hb HD Dpos HP H1 H2.
  destruct (run_lcoe_model_grid _ dem out1 a1 b demand peak H1)
    as (m1 & c & cg1 & g1 & Hm1 & Ec & Hc & E1 & Hcg1 & Eg1 & Hg1);
    try reflexivity; try assumption; [lra |].
  destruct (run_lcoe_model_grid _ dem out2 a2 b demand peak H2)
    as (m2 & c' & cg2 & g2 & Hm2 & Ec' & _ & E2 & Hcg2 & Eg2 & Hg2);
    try reflexivity; try assumption; [lra |].
  rewrite Ec in Ec'. apply Ok_inj in Ec'. subst c'.
  change (terrain_factor_of (set_dist_to_substations gdf (Some (Fin a1))))
    with (terrain_factor_of gdf) in Hcg1.
  change (terrain_factor_of (set_dist_to_substations gdf (Some (Fin a2))))
    with (terrain_factor_of gdf) in Hcg2.
  pose proof (terrain_factor_pos gdf) as T.
  assert (M : m1 <= m2).
  { rewrite Hm1, Hm2. apply Q.min_le_compat_r. exact Ha. }
  assert (MV : m1 * MV_COST_KM <= m2 * MV_COST_KM)
    by (apply Qmult_le_compat_r; [exact M | unfold MV_COST_KM; lra]).
  assert (MT : m1 * MV_COST_KM * terrain_factor_of gdf
               <= m2 * MV_COST_KM * terrain_factor_of gdf)
    by (apply Qmult_le_compat_r; [exact MV | lra]).
  assert (C : cg1 <= cg2) by lra.
  assert (CK : cg1 * (c + 0.02) <= cg2 * (c + 0.02))
    by (apply Qmult_le_compat_r; lra).
  exists cg1, cg2, g1, g2. repeat split; try assumption.
  rewrite Hg1, Hg2. apply Qmult_le_compat_r; [lra |].
  apply Qlt_le_weak, Qinv_lt_0_compat, Dpos.
Qed.

Lemma grid_lcoe_monotone_in_distance_witness :
  exists c1 c2 g1 g2,
    capex_grid (from_ok no_lcoe
                  (run_lcoe_model
                     (set_dist_to_substations vacant_row (Some (Fin 5)))
                     kit_demand)) = Fin c1
    /\ capex_grid (from_ok no_lcoe
                     (run_lcoe_model
                        (set_dist_to_substations vacant_row (Some (Fin 30)))
                        kit_demand)) = Fin c2
    /\ c1 <= c2
    /\ lcoe_grid (from_ok no_lcoe
                    (run_lcoe_model
                       (set_dist_to_substations vacant_row (Some (Fin 5)))
                       kit_demand)) = Fin g1
    /\ lcoe_grid (from_ok no_lcoe
                    (run_lcoe_model
                       (set_dist_to_substations vacant_row (Some (Fin 30)))
                       kit_demand)) = Fin g2
    /\ g1 <= g2.
Proof.
  apply (grid_lcoe_monotone_in_distance vacant_row kit_demand 5 30 10 220 0.2);
    try reflexivity; discriminate.
Defined.

(* ------------------------------------------------------------------ *)
(** ** Further properties: selection with undefined LCOEs *)




(** X17.  For every well-formed row that goes through both models, the
    mini-grid LCOE is a number between 0 and 4 USD per kWh. *)
Theorem pipeline_mini_grid_lcoe_range (s : Settlement) :
  well_formed s -> has_grid_distances s ->
  exists d out m,
    Pipeline.main s = Ok (d, out)
    /\ lcoe_mg out = Fin m /\ 0 <= m /\ m <= 4.
Proof.
  intros W G.
  destruct (pipeline_total s W G) as (d & out & Hm & Hd & Ho).
  destruct (pipeline_lcoe_mg_bound s d out W Hd Ho) as (m & Em & M0 & M4).
  exists d, out, m. auto.
Qed.

Lemma pipeline_mini_grid_lcoe_range_witness :
  exists d out m,
    Pipeline.main hamlet = Ok (d, out)
    /\ lcoe_mg out = Fin m /\ 0 <= m /\ m <= 4.
Proof.
  apply (pipeline_mini_grid_lcoe_range hamlet);
    [exact hamlet_well_formed | exact hamlet_has_grid_distances].
Defined.

(* ------------------------------------------------------------------ *)
(** ** Further properties: where the sentinel keeps solar kits out *)

(** X19.  For every row that the mask of [run_lcoe_model] covers (a tier
    above the solar-kit ceiling, or a positive commercial, agricultural or
    public demand), [lcoe_shs] is 999.9 whatever value was computed, and
    the row is not labelled SHS whenever its grid or mini-grid LCOE is at
    most 999.9.  For every well-formed row that goes through the demand
    model first, the mini-grid LCOE is below that mark, so such a row is
    never labelled SHS. *)
Theorem shs_sentinel :
  (forall gdf dem out,
     run_lcoe_model gdf dem = Ok out ->
     shs_ineligible dem ->
     lcoe_shs out = Fin 999.9
     /\ (Num.le (lcoe_grid out) (Fin 999.9)
         \/ Num.le (lcoe_mg out) (Fin 999.9) ->
         optimal_tech out <> Some "SHS"%string))
  /\ (forall s d out,
        well_formed s ->
        run_demand_model s = Ok d -> run_lcoe_model s d = Ok out ->
        shs_ineligible d ->
        lcoe_shs out = Fin 999.9
        /\ optimal_tech out <> Some "SHS"%string).
Proof.
  split; [exact sentinel_blocks_shs |].
  intros s d out W Hd Ho Hmask.
  destruct (sentinel_blocks_shs s d out Ho Hmask) as (S & N).
  split; [exact S |]. apply N. right.
  destruct (pipeline_lcoe_mg_bound s d out W Hd Ho) as (m & -> & _ & Hm).
  cbn [Num.le]. lra.
Qed.

Lemma hamlet_shs_ineligible : shs_ineligible hamlet_demand.
Proof. right; left. reflexivity. Defined.

Lemma shs_sentinel_witness :
  (lcoe_shs hamlet_lcoe = Fin 999.9
   /\ (Num.le (lcoe_grid hamlet_lcoe) (Fin 999.9)
       \/ Num.le (lcoe_mg hamlet_lcoe) (Fin 999.9) ->
       optimal_tech hamlet_lcoe <> Some "SHS"%string))
  /\ (lcoe_shs hamlet_lcoe = Fin 999.9
      /\ optimal_tech hamlet_lcoe <> Some "SHS"%string).
Proof.
  destruct shs_sentinel as (S1 & S2).
  split.
  - apply (S1 hamlet hamlet_demand hamlet_lcoe);
      [exact hamlet_lcoe_ok | exact hamlet_shs_ineligible].
  - apply (S2 hamlet hamlet_demand hamlet_lcoe);
      [exact hamlet_well_formed | exact hamlet_demand_ok
      | exact hamlet_lcoe_ok | exact hamlet_shs_ineligible].
Defined.
